(** * Deployment planner of the SageMaker endpoint module

    A shallow embedding of
    [src/modules/sagemaker/sagemaker-endpoint/stack.py]
    ([get_timestamp] and [DeployEndpointStack.__init__]) and the properties of
    the endpoint-deployment orchestration logic stated about it.

    The constructor is straight-line Python that mutates the construct tree of
    the stack being built, reads the wall clock, and may call the model
    registry.  It is embedded as a computation in a state-and-exception monad
    over a [World] holding the construct tree, the tags, the audit
    suppressions, the attributes set on [self] and a trace of the calls made
    to the collaborators. *)

From Stdlib Require Import String Ascii List Bool Arith ZArith Lia.
Import ListNotations.
Local Open Scope list_scope.
Local Open Scope string_scope.

Set Implicit Arguments.

(** ** Python values *)

(** [Optional[str]] parameters are tested by truthiness in the source
    ([if x:], [if not x:]): [None] and the empty string are both false. *)
Definition truthy (o : option string) : option string :=
  match o with
  | Some s => if String.eqb s "" then None else Some s
  | None => None
  end.

(** The values of a [Dict[str, Any]] as far as this module hands them on. *)
Inductive PyVal :=
| PyNone
| PyBool (b : bool)
| PyInt (n : Z)
| PyStr (s : string).

(** A [dict] with string keys, in insertion order. *)
Definition PyDict := list (string * PyVal).

Definition dict_has_key (k : string) (d : PyDict) : bool :=
  existsb (String.eqb k) (map fst d).

(** Why a call is refused with a [TypeError]. *)
Inductive CallError :=
| multiple_values (callee keyword : string)
| unexpected_arguments (callee : string).

Inductive Exn :=
| ValueError (msg : string)
| TypeError (why : CallError)
| LookupFailure (region group : string)
| RuntimeError (refused : string).

(** ** [datetime] and [get_timestamp] *)

Module Datetime.

Inductive tzinfo := utc.

(** A [datetime.datetime] object: its fields, and the attached time zone
    ([None] for a naive object). *)
Record datetime := mk {
  year : Z; month : Z; day : Z;
  hour : Z; minute : Z; second : Z;
  microsecond : Z;
  tz : option tzinfo
}.

(** The class invariant of [datetime], restricted to the years of four
    digits. *)
Definition valid (d : datetime) : Prop :=
  (1000 <= year d <= 9999 /\ 1 <= month d <= 12 /\ 1 <= day d <= 31 /\
   0 <= hour d <= 23 /\ 0 <= minute d <= 59 /\ 0 <= second d <= 59)%Z.

(** [dt.replace(tzinfo=t)]: the fields are kept, only the label changes. *)
Definition replace_tzinfo (d : datetime) (t : tzinfo) : datetime :=
  mk (year d) (month d) (day d) (hour d) (minute d) (second d)
     (microsecond d) (Some t).

(** The fields a second-resolution timestamp can distinguish. *)
Definition to_second (d : datetime) : list Z :=
  [year d; month d; day d; hour d; minute d; second d].

Definition digit (n : Z) : ascii := ascii_of_N (Z.to_N (48 + n)).

(** [n] in decimal, zero-padded to exactly [w] digits, in front of [acc]. *)
Fixpoint zpad (w : nat) (n : Z) (acc : string) : string :=
  match w with
  | 0 => acc
  | S w' => zpad w' (n / 10)%Z (String (digit (n mod 10)%Z) acc)
  end.

(** The digits [%Y] prints: the year is not padded. *)
Definition year_digits (y : Z) : nat :=
  if (y <? 10)%Z then 1
  else if (y <? 100)%Z then 2
  else if (y <? 1000)%Z then 3
  else 4.

Definition directive (c : ascii) (d : datetime) : string :=
  if Ascii.eqb c "Y" then zpad (year_digits (year d)) (year d) ""
  else if Ascii.eqb c "m" then zpad 2 (month d) ""
  else if Ascii.eqb c "d" then zpad 2 (day d) ""
  else if Ascii.eqb c "H" then zpad 2 (hour d) ""
  else if Ascii.eqb c "M" then zpad 2 (minute d) ""
  else if Ascii.eqb c "S" then zpad 2 (second d) ""
  else String "%" (String c "").

(** [dt.strftime(fmt)] for the directives above; anything else is copied. *)
Fixpoint strftime (fmt : string) (d : datetime) : string :=
  match fmt with
  | "" => ""
  | String "%" (String c rest) => directive c d ++ strftime rest d
  | String c rest => String c (strftime rest d)
  end.

End Datetime.

(** One reading of the host clock: the same instant as broken-down UTC time
    and as broken-down local time of the host's time zone. *)
Record Instant := {
  utc_wall : Datetime.datetime;
  local_wall : Datetime.datetime
}.

(** [datetime.now()] with no argument: naive local time. *)
Definition datetime_now (i : Instant) : Datetime.datetime := local_wall i.

(** [datetime.now(timezone.utc)]: the same instant in UTC. *)
Definition datetime_now_utc (i : Instant) : Datetime.datetime :=
  Datetime.replace_tzinfo (utc_wall i) Datetime.utc.

(** The pure part of [get_timestamp], on the clock reading it is given. *)
Definition timestamp_of (i : Instant) : string :=
  let now := Datetime.replace_tzinfo (datetime_now i) Datetime.utc in
  Datetime.strftime "%Y%m%d%H%M%S" now.

(** The timestamp of the current time in UTC, for comparison. *)
Definition utc_timestamp_of (i : Instant) : string :=
  Datetime.strftime "%Y%m%d%H%M%S" (datetime_now_utc i).

(** ** The construct tree *)

(** A value handed to a resource property: a plain string, or a token that the
    provisioning engine resolves to an attribute of another construct of the
    same stack. *)
Inductive Attr :=
| Lit (s : string)
| GetAtt (construct attribute : string).

Inductive Effect := ALLOW | DENY.

(** [iam.PolicyStatement(actions=..., resources=..., effect=...)]; the effect
    defaults to [ALLOW]. *)
Record PolicyStatement := {
  actions : list string;
  resources : list string;
  effect : Effect
}.

(** What a role has been given: a statement authored by the caller of
    [add_to_policy], or a read grant produced by a bucket's own [grant_read]
    and scoped to that bucket. *)
Inductive PolicyItem :=
| Statement (st : PolicyStatement)
| BucketReadGrant (bucket_arn : string).

Inductive Peer := Peer_ipv4 (cidr : string).
Inductive Port := Port_all_tcp.
Inductive Principal := AccountRootPrincipal.

(** The constructs this stack creates, with the properties it sets on them. *)
Inductive Props :=
| VpcLookup (vpc_id vpc_cidr_block : string)
| SecurityGroup (vpc : string) (allow_all_outbound : bool)
                (ingress : list (Peer * Port))
| Role (assumed_by : string) (policy : list PolicyItem)
| RoleFromArn (role_arn : string) (policy : list PolicyItem)
| BucketFromArn (bucket_arn : string)
| CfnModel (execution_role_arn : Attr) (model_name : string)
           (container_model_package_names : list string)
           (security_group_ids : list Attr) (subnets : list string)
| Key (description : string) (enable_key_rotation : bool)
      (encrypt_decrypt : list Principal)
| CfnEndpointConfig (endpoint_config_name : string) (kms_key_id : Attr)
                    (production_variants : list PyDict)
| CfnEndpoint (endpoint_config_name : string).

(** A construct of the stack: the id it was created under, its properties, and
    the constructs it was told to depend on with [add_dependency]. *)
Record Node := {
  cid : string;
  props : Props;
  depends_on : list string
}.

(** The kinds of planned infrastructure objects.  Lookups and references to
    objects that exist already ([Vpc.from_lookup], [Role.from_role_arn],
    [Bucket.from_bucket_arn]) are constructs but not resources. *)
Inductive Kind :=
| KModel | KEndpointConfig | KEndpoint | KSecurityGroup | KEncryptionKey | KRole.

Definition kind_of (p : Props) : option Kind :=
  match p with
  | VpcLookup _ _ => None
  | SecurityGroup _ _ _ => Some KSecurityGroup
  | Role _ _ => Some KRole
  | RoleFromArn _ _ => None
  | BucketFromArn _ => None
  | CfnModel _ _ _ _ _ => Some KModel
  | Key _ _ _ => Some KEncryptionKey
  | CfnEndpointConfig _ _ _ => Some KEndpointConfig
  | CfnEndpoint _ => Some KEndpoint
  end.

Definition Kind_eqb (a b : Kind) : bool :=
  match a, b with
  | KModel, KModel | KEndpointConfig, KEndpointConfig | KEndpoint, KEndpoint
  | KSecurityGroup, KSecurityGroup | KEncryptionKey, KEncryptionKey
  | KRole, KRole => true
  | _, _ => false
  end.

Definition attr_target (a : Attr) : list string :=
  match a with
  | Lit _ => []
  | GetAtt c _ => [c]
  end.

(** The constructs a node refers to through its properties.  The statements
    of a role name their resources by literal ARN patterns, not by token. *)
Definition references (p : Props) : list string :=
  match p with
  | VpcLookup _ _ => []
  | SecurityGroup vpc _ _ => [vpc]
  | Role _ _ => []
  | RoleFromArn _ _ => []
  | BucketFromArn _ => []
  | CfnModel r _ _ sgs _ => (attr_target r ++ flat_map attr_target sgs)%list
  | Key _ _ _ => []
  | CfnEndpointConfig _ k _ => attr_target k
  | CfnEndpoint _ => []
  end.

(** Everything a node depends on: by reference and by [add_dependency]. *)
Definition dependencies (n : Node) : list string :=
  (references (props n) ++ depends_on n)%list.

Definition mem (x : string) (l : list string) : bool :=
  existsb (String.eqb x) l.

(** Topological order of a node list: every dependency of a node is the id of
    a node that stands earlier in the list. *)
Fixpoint topological_from (seen : list string) (l : list Node) : bool :=
  match l with
  | [] => true
  | n :: l' =>
      forallb (fun d => mem d seen) (dependencies n)
      && topological_from (cid n :: seen) l'
  end.

Definition topological (l : list Node) : bool := topological_from [] l.

(** ** The world the constructor runs in *)

(** [NagSuppressions.add_resource_suppressions(target, apply_to_children=...,
    suppressions=[NagPackSuppression(id=..., reason=...)])]. *)
Record Suppression := {
  target : string;
  apply_to_children : bool;
  rule_id : string;
  reason : string
}.

(** Calls to the collaborators, in the order they are made. *)
Inductive Call :=
| Vpc_from_lookup_called (vpc_id : string)
| datetime_now_called (tick : nat)
| get_approved_package_called (region group : string)
| add_to_policy_called (role : string) (st : PolicyStatement)
| grant_read_called (bucket_arn role : string).

Definition is_external_lookup (c : Call) : bool :=
  match c with
  | Vpc_from_lookup_called _ | datetime_now_called _
  | get_approved_package_called _ _ => true
  | _ => false
  end.


Definition is_role_grant (c : Call) : bool :=
  match c with
  | add_to_policy_called _ _ | grant_read_called _ _ => true
  | _ => false
  end.

(** The attributes the constructor sets on [self]. *)
Record Self := {
  self_model_execution_role : option string;
  self_model_package_arn : option string;
  self_model : option string;
  self_endpoint : option string;
  self_endpoint_url : option (list Attr)
}.

Record World := {
  nodes : list Node;            (* constructs of the stack, in creation order *)
  tags : list (string * string);
  suppressions : list Suppression;
  trace : list Call;
  ticks : nat;                  (* readings of the host clock so far *)
  self : Self
}.

(** What the constructor reads from outside the stack. *)
Record Env := {
  (** the host clock: the instant seen by the [n]-th reading *)
  clock : nat -> Instant;
  (** the context provider behind [ec2.Vpc.from_lookup]: the CIDR block of a
      VPC id *)
  vpc_context : string -> string;
  (** Modelled from the spec: [scripts.get_approved_package.get_approved_package]
      is not among the sources; the registry lookup takes a region and a
      group and returns the latest approved artifact of the group, or fails if
      the group has none. *)
  get_approved_package : string -> string -> option string;
  (** whether the keyword arguments fit the signature of the library's
      [ProductionVariantProperty] *)
  ProductionVariantProperty_accepts : PyDict -> bool;
  (** whether the library's [Role.from_role_arn] takes the string for the ARN
      of a role; it raises on one it cannot parse *)
  Role_from_role_arn_accepts : string -> bool
}.

(** ** A state-and-exception monad *)

Inductive Result (A : Type) :=
| Ok (a : A)
| Raise (e : Exn).
Arguments Ok {A} a.
Arguments Raise {A} e.

(** A computation runs in a world and leaves a world, also when it raises:
    what was built before the exception stays built. *)
Definition M (A : Type) : Type := World -> Result A * World.

Definition ret {A} (a : A) : M A := fun w => (Ok a, w).

Definition bind {A B} (c : M A) (k : A -> M B) : M B :=
  fun w =>
    match c w with
    | (Ok a, w') => k a w'
    | (Raise e, w') => (Raise e, w')
    end.

Definition raise {A} (e : Exn) : M A := fun w => (Raise e, w).

Definition gets {A} (f : World -> A) : M A := fun w => (Ok (f w), w).

Definition modify (f : World -> World) : M unit := fun w => (Ok tt, f w).

Declare Scope py_scope.
Delimit Scope py_scope with py.
Notation "x <- c ;; k" := (bind c (fun x => k))
  (at level 61, c at next level, right associativity) : py_scope.
Notation "c ;; k" := (bind c (fun _ => k))
  (at level 61, right associativity) : py_scope.
Local Open Scope py_scope.

(** *** Updates of the world *)

Definition with_nodes (f : list Node -> list Node) (w : World) : World :=
  {| nodes := f (nodes w); tags := tags w; suppressions := suppressions w;
     trace := trace w; ticks := ticks w; self := self w |}.

Definition with_tags (f : list (string * string) -> list (string * string))
    (w : World) : World :=
  {| nodes := nodes w; tags := f (tags w); suppressions := suppressions w;
     trace := trace w; ticks := ticks w; self := self w |}.

Definition with_suppressions (f : list Suppression -> list Suppression)
    (w : World) : World :=
  {| nodes := nodes w; tags := tags w; suppressions := f (suppressions w);
     trace := trace w; ticks := ticks w; self := self w |}.

Definition with_trace (f : list Call -> list Call) (w : World) : World :=
  {| nodes := nodes w; tags := tags w; suppressions := suppressions w;
     trace := f (trace w); ticks := ticks w; self := self w |}.

Definition with_ticks (f : nat -> nat) (w : World) : World :=
  {| nodes := nodes w; tags := tags w; suppressions := suppressions w;
     trace := trace w; ticks := f (ticks w); self := self w |}.

Definition with_self (f : Self -> Self) (w : World) : World :=
  {| nodes := nodes w; tags := tags w; suppressions := suppressions w;
     trace := trace w; ticks := ticks w; self := f (self w) |}.

Definition snoc {A} (x : A) (l : list A) : list A := (l ++ [x])%list.

Definition called (c : Call) : M unit := modify (with_trace (snoc c)).

(** [Construct(self, id, ...)]: the new construct becomes the last child of
    the stack; the handle of the object is its id. *)
Definition construct (id : string) (p : Props) : M string :=
  modify (with_nodes (snoc {| cid := id; props := p; depends_on := [] |})) ;;
  ret id.

Definition update_node (id : string) (f : Node -> Node) : M unit :=
  modify (with_nodes (map (fun n => if String.eqb (cid n) id then f n else n))).

Definition find_node (id : string) (w : World) : option Node :=
  find (fun n => String.eqb (cid n) id) (nodes w).

(** [a.add_dependency(b)] *)
Definition add_dependency (a b : string) : M unit :=
  update_node a (fun n =>
    {| cid := cid n; props := props n; depends_on := snoc b (depends_on n) |}).

Definition update_props (id : string) (f : Props -> Props) : M unit :=
  update_node id (fun n =>
    {| cid := cid n; props := f (props n); depends_on := depends_on n |}).

(** *** The library calls the constructor makes *)

(** [Tags.of(self).add(key, value)] *)
Definition Tags_add (key value : string) : M unit :=
  modify (with_tags (snoc (key, value))).

(** [if value: Tags.of(self).add(key, value)] *)
Definition tag_when_given (key : string) (value : option string) : M unit :=
  match truthy value with
  | Some v => Tags_add key v
  | None => ret tt
  end.

(** [ec2.Vpc.from_lookup(self, id, vpc_id=...)]: asks the context provider. *)
Definition Vpc_from_lookup (env : Env) (id vpc_id : string) : M string :=
  called (Vpc_from_lookup_called vpc_id) ;;
  construct id (VpcLookup vpc_id (vpc_context env vpc_id)).

(** [vpc.vpc_cidr_block] *)
Definition vpc_cidr_block (vpc : string) : M string :=
  gets (fun w =>
    match find_node vpc w with
    | Some {| props := VpcLookup _ cidr |} => cidr
    | _ => ""
    end).

(** [security_group.add_ingress_rule(peer=..., connection=...)] *)
Definition add_ingress_rule (sg : string) (peer : Peer) (connection : Port)
    : M unit :=
  update_props sg (fun p =>
    match p with
    | SecurityGroup v o rules => SecurityGroup v o (snoc (peer, connection) rules)
    | _ => p
    end).

Definition give (i : PolicyItem) (p : Props) : Props :=
  match p with
  | Role a pol => Role a (snoc i pol)
  | RoleFromArn a pol => RoleFromArn a (snoc i pol)
  | _ => p
  end.

(** [role.add_to_policy(statement)] *)
Definition add_to_policy (role : string) (st : PolicyStatement) : M unit :=
  called (add_to_policy_called role st) ;;
  update_props role (give (Statement st)).

(** [bucket.grant_read(role)]: the bucket's own grant, scoped to the bucket. *)
Definition grant_read (bucket role : string) : M unit :=
  arn <- gets (fun w =>
    match find_node bucket w with
    | Some {| props := BucketFromArn a |} => a
    | _ => ""
    end) ;;
  called (grant_read_called arn role) ;;
  update_props role (give (BucketReadGrant arn)).

(** [role.role_arn]: a token for a role of this stack, the given ARN for an
    imported one. *)
Definition role_arn (role : string) : M Attr :=
  gets (fun w =>
    match find_node role w with
    | Some {| props := RoleFromArn a _ |} => Lit a
    | _ => GetAtt role "Arn"
    end).

(** [kms_key.grant_encrypt_decrypt(principal)] *)
Definition grant_encrypt_decrypt (key : string) (g : Principal) : M unit :=
  update_props key (fun p =>
    match p with
    | Key d r gs => Key d r (snoc g gs)
    | _ => p
    end).

(** [f(model_name=..., ** kwargs)]: Python refuses a call in which an explicit
    keyword comes again out of the unpacked dict. *)
Definition call_with_keywords (fname : string) (explicit splat : PyDict)
    : M PyDict :=
  match find (fun kv => dict_has_key (fst kv) explicit) splat with
  | Some (k, _) => raise (TypeError (multiple_values fname k))
  | None => ret (explicit ++ splat)%list
  end.

(** [sagemaker.CfnEndpointConfig.ProductionVariantProperty] called with
    keywords: the library checks them against its signature. *)
Definition ProductionVariantProperty (env : Env) (explicit splat : PyDict)
    : M PyDict :=
  kw <- call_with_keywords "ProductionVariantProperty" explicit splat ;;
  if ProductionVariantProperty_accepts env kw then ret kw
  else raise (TypeError (unexpected_arguments "ProductionVariantProperty")).

(** [NagSuppressions.add_resource_suppressions] *)
Definition add_resource_suppressions (s : Suppression) : M unit :=
  modify (with_suppressions (snoc s)).

(** ** [get_timestamp] *)

(** Reads the host clock once. *)
Definition get_timestamp (env : Env) : M string :=
  n <- gets ticks ;;
  called (datetime_now_called n) ;;
  modify (with_ticks S) ;;
  ret (timestamp_of (clock env n)).

(** ** [DeployEndpointStack.__init__] *)

(** The arguments of the constructor.  [region] and [account] are what
    [self.region] and [self.account] give, from the environment passed among
    the keyword arguments to [Stack.__init__]. *)
Record Request := {
  id : string;
  sagemaker_project_id : option string;
  sagemaker_project_name : option string;
  model_package_arn : option string;
  model_package_group_name : option string;
  model_execution_role_arn : option string;
  vpc_id : string;
  subnet_ids : list string;
  model_artifacts_bucket_arn : option string;
  ecr_repo_arn : option string;
  endpoint_config_prod_variant : PyDict;
  region : string;
  account : string
}.

(** The stack right after [super().__init__(scope, id, ** kwargs)], on a host
    whose clock has been read [t] times. *)
Definition fresh_stack (t : nat) : World :=
  {| nodes := []; tags := []; suppressions := []; trace := []; ticks := t;
     self := {| self_model_execution_role := None;
                self_model_package_arn := None;
                self_model := None;
                self_endpoint := None;
                self_endpoint_url := None |} |}.

Definition set_model_execution_role (r : string) : M unit :=
  modify (with_self (fun s =>
    {| self_model_execution_role := Some r;
       self_model_package_arn := self_model_package_arn s;
       self_model := self_model s;
       self_endpoint := self_endpoint s;
       self_endpoint_url := self_endpoint_url s |})).

Definition set_model_package_arn (a : string) : M unit :=
  modify (with_self (fun s =>
    {| self_model_execution_role := self_model_execution_role s;
       self_model_package_arn := Some a;
       self_model := self_model s;
       self_endpoint := self_endpoint s;
       self_endpoint_url := self_endpoint_url s |})).

Definition set_model (m : string) : M unit :=
  modify (with_self (fun s =>
    {| self_model_execution_role := self_model_execution_role s;
       self_model_package_arn := self_model_package_arn s;
       self_model := Some m;
       self_endpoint := self_endpoint s;
       self_endpoint_url := self_endpoint_url s |})).

Definition set_endpoint (e : string) (url : list Attr) : M unit :=
  modify (with_self (fun s =>
    {| self_model_execution_role := self_model_execution_role s;
       self_model_package_arn := self_model_package_arn s;
       self_model := self_model s;
       self_endpoint := Some e;
       self_endpoint_url := Some url |})).

Definition baseline_actions : list string :=
  [ "cloudwatch:PutMetricData";
    "logs:CreateLogStream";
    "logs:PutLogEvents";
    "logs:CreateLogGroup";
    "logs:DescribeLogStreams";
    "ecr:GetAuthorizationToken";
    "ec2:CreateNetworkInterface";
    "ec2:CreateNetworkInterfacePermission";
    "ec2:DeleteNetworkInterface";
    "ec2:DeleteNetworkInterfacePermission";
    "ec2:DescribeNetworkInterfaces";
    "ec2:DescribeVpcs";
    "ec2:DescribeDhcpOptions";
    "ec2:DescribeSubnets";
    "ec2:DescribeSecurityGroups" ].

Definition baseline_statement : PolicyStatement :=
  {| actions := baseline_actions; resources := ["*"]; effect := ALLOW |}.

Definition kms_statement (rq : Request) : PolicyStatement :=
  {| actions := [ "kms:Encrypt"; "kms:ReEncrypt*"; "kms:GenerateDataKey*";
                  "kms:Decrypt"; "kms:DescribeKey" ];
     resources := [ "arn:aws:kms:" ++ region rq ++ ":" ++ account rq ++ ":key/*" ];
     effect := ALLOW |}.

Definition unscoped_bucket_statement : PolicyStatement :=
  {| actions := [ "s3:ListBucket"; "s3:GetObject" ];
     resources := [ "*" ];
     effect := ALLOW |}.

Definition ecr_statement (repo : string) : PolicyStatement :=
  {| actions := [ "ecr:BatchCheckLayerAvailability";
                  "ecr:GetDownloadUrlForLayer";
                  "ecr:BatchGetImage" ];
     resources := [ repo ];
     effect := ALLOW |}.

Definition IAM5_suppression (role : string) : Suppression :=
  {| target := role;
     apply_to_children := true;
     rule_id := "AwsSolutions-IAM5";
     reason := "Model execution role requires some generic permissions." |}.

Definition missing_package_message : string :=
  "Either model_package_arn or model_package_group_name is required".

(** [ecr_repo_arn if ecr_repo_arn else "*"] *)
Definition repository_scope (rq : Request) : string :=
  match truthy (ecr_repo_arn rq) with
  | Some a => a
  | None => "*"
  end.

(** Lines 57 to 128: the execution role, created with its permissions or
    taken from the caller. *)
Definition resolve_role (env : Env) (rq : Request) : M string :=
  match truthy (model_execution_role_arn rq) with
  | None =>
      role <- construct "Model Execution Role"
                (Role "sagemaker.amazonaws.com" []) ;;
      set_model_execution_role role ;;
      add_to_policy role baseline_statement ;;
      add_to_policy role (kms_statement rq) ;;
      match truthy (model_artifacts_bucket_arn rq) with
      | Some bucket_arn =>
          model_bucket <- construct "Model Bucket" (BucketFromArn bucket_arn) ;;
          grant_read model_bucket role
      | None =>
          add_to_policy role unscoped_bucket_statement
      end ;;
      let ecr_repo_arn := repository_scope rq in
      add_to_policy role (ecr_statement ecr_repo_arn) ;;
      ret role
  | Some arn =>
      if Role_from_role_arn_accepts env arn
      then
        role <- construct "Model Execution Role" (RoleFromArn arn []) ;;
        set_model_execution_role role ;;
        ret role
      else raise (RuntimeError arn)
  end.

(** Lines 130 to 137: the model package, given or looked up. *)
Definition resolve_package (env : Env) (rq : Request) : M string :=
  match truthy (model_package_arn rq) with
  | Some arn => ret arn
  | None =>
      match truthy (model_package_group_name rq) with
      | Some group =>
          called (get_approved_package_called (region rq) group) ;;
          match get_approved_package env (region rq) group with
          | Some arn => ret arn
          | None => raise (LookupFailure (region rq) group)
          end
      | None => raise (ValueError missing_package_message)
      end
  end.

(** [endpoint_config.endpoint_config_name]: the string the construct was
    given. *)
Definition endpoint_config_name_of (ec : string) : M string :=
  gets (fun w =>
    match find_node ec w with
    | Some {| props := CfnEndpointConfig name _ _ |} => name
    | _ => ""
    end).

Definition DeployEndpointStack_init (env : Env) (rq : Request) : M unit :=
  tag_when_given "sagemaker:project-id" (sagemaker_project_id rq) ;;
  tag_when_given "sagemaker:project-name" (sagemaker_project_name rq) ;;
  (* Import VPC, create security group, and add ingress rule *)
  vpc <- Vpc_from_lookup env "VPC" (vpc_id rq) ;;
  security_group <- construct "Security Group" (SecurityGroup vpc true []) ;;
  cidr <- vpc_cidr_block vpc ;;
  add_ingress_rule security_group (Peer_ipv4 cidr) Port_all_tcp ;;
  role <- resolve_role env rq ;;
  package <- resolve_package env rq ;;
  set_model_package_arn package ;;
  (* Create model instance *)
  ts <- get_timestamp env ;;
  let model_name := id rq ++ "-model-" ++ ts in
  execution_role_arn <- role_arn role ;;
  model <- construct "Model"
             (CfnModel execution_role_arn model_name [package]
                       [GetAtt security_group "GroupId"] (subnet_ids rq)) ;;
  set_model model ;;
  (* Create kms key to be used by the endpoint assets bucket *)
  kms_key <- construct "Endpoint Key"
               (Key "Key used for encryption of data in Amazon SageMaker Endpoint"
                    true []) ;;
  grant_encrypt_decrypt kms_key AccountRootPrincipal ;;
  (* Create endpoint config *)
  ts' <- get_timestamp env ;;
  let endpoint_config_name := id rq ++ "-conf-" ++ ts' in
  variant <- ProductionVariantProperty env
               [("model_name", PyStr model_name)]
               (endpoint_config_prod_variant rq) ;;
  endpoint_config <- construct "Endpoint Configuration"
                       (CfnEndpointConfig endpoint_config_name
                                          (GetAtt kms_key "KeyId") [variant]) ;;
  add_dependency endpoint_config model ;;
  (* Create endpoint *)
  name <- endpoint_config_name_of endpoint_config ;;
  endpoint <- construct "Endpoint" (CfnEndpoint name) ;;
  add_dependency endpoint endpoint_config ;;
  set_endpoint endpoint
    [ Lit "https://runtime.sagemaker."; Lit (region rq);
      Lit ".amazonaws.com/endpoints/"; GetAtt endpoint "EndpointName";
      Lit "/invocations" ] ;;
  (* Add CDK nag suppressions *)
  match truthy (model_execution_role_arn rq) with
  | None => add_resource_suppressions (IAM5_suppression role)
  | Some _ => ret tt
  end.

(** [TypeError: ProductionVariantProperty() got multiple values for keyword
    argument 'model_name'] *)
Definition duplicate_model_name : Exn :=
  TypeError (multiple_values "ProductionVariantProperty" "model_name").

(** One invocation: a new stack is built on a host whose clock has been read
    [t] times before. *)
Definition plan (env : Env) (rq : Request) (t : nat) : Result unit * World :=
  DeployEndpointStack_init env rq (fresh_stack t).


(** ** What is observed of a world *)

(** The kinds of the resources of the stack, in creation order. *)
Definition resource_kinds (w : World) : list Kind :=
  flat_map (fun n => match kind_of (props n) with
                     | Some k => [k]
                     | None => []
                     end) (nodes w).

Definition nodes_of_kind (k : Kind) (w : World) : list Node :=
  filter (fun n => match kind_of (props n) with
                   | Some k' => Kind_eqb k k'
                   | None => false
                   end) (nodes w).

(** The names the constructor makes up: of the model and of the endpoint
    configuration.  The other constructs are left to be named by the
    provisioning engine. *)
Definition generated_name (p : Props) : list string :=
  match p with
  | CfnModel _ name _ _ _ => [name]
  | CfnEndpointConfig name _ _ => [name]
  | _ => []
  end.

Definition generated_names (w : World) : list string :=
  flat_map (fun n => generated_name (props n)) (nodes w).

(** The last fourteen characters of a name. *)
Definition timestamp_component (name : string) : string :=
  substring (String.length name - 14) 14 name.

Definition names_share_timestamp (w : World) : Prop :=
  forall a b, In a (generated_names w) -> In b (generated_names w) ->
    timestamp_component a = timestamp_component b.

(** What the roles of the stack have been given. *)
Definition role_policy (w : World) : list PolicyItem :=
  flat_map (fun n => match props n with
                     | Role _ pol => pol
                     | RoleFromArn _ pol => pol
                     | _ => []
                     end) (nodes w).

(** The package each model of the stack is made of. *)
Definition model_packages (w : World) : list (list string) :=
  flat_map (fun n => match props n with
                     | CfnModel _ _ pkgs _ _ => [pkgs]
                     | _ => []
                     end) (nodes w).

Definition model_roles (w : World) : list Attr :=
  flat_map (fun n => match props n with
                     | CfnModel r _ _ _ _ => [r]
                     | _ => []
                     end) (nodes w).

Definition bucket_imports (w : World) : list string :=
  flat_map (fun n => match props n with
                     | BucketFromArn a => [a]
                     | _ => []
                     end) (nodes w).





(** The kinds of a stack in which the role is created when none is given. *)
Definition role_kind (rq : Request) : list Kind :=
  match truthy (model_execution_role_arn rq) with
  | None => [KRole]
  | Some _ => []
  end.

(** The tag a given value makes. *)
Definition given_tag (key : string) (value : option string)
    : list (string * string) :=
  match truthy value with
  | Some v => [(key, v)]
  | None => []
  end.

(** The local wall-clock second of the [n]-th reading of the host clock. *)
Definition wall_second (env : Env) (n : nat) : list Z :=
  Datetime.to_second (datetime_now (clock env n)).

(** ** The statements put to the test *)

(** Every completed plan carries one timestamp in all the names it
    generates. *)
Definition one_timestamp_per_plan (env : Env) (rq : Request) (t : nat) : Prop :=
  forall w, plan env rq t = (Ok tt, w) -> names_share_timestamp w.



(** The order of construction Role, SecurityGroup, EncryptionKey, Model,
    EndpointConfig, Endpoint. *)
Definition claimed_order (rq : Request) : list Kind :=
  (role_kind rq ++
   [KSecurityGroup; KEncryptionKey; KModel; KEndpointConfig; KEndpoint])%list.

(** What the endpoints of the stack were told to depend on. *)
Definition endpoint_dependencies (w : World) : list string :=
  flat_map (fun n => match props n with
                     | CfnEndpoint _ => depends_on n
                     | _ => []
                     end) (nodes w).

(** The resources are built in the claimed order, the endpoint is tied to its
    configuration by name alone, and the node list is in topological order. *)
Definition built_in_claimed_order
    (env : Env) (rq : Request) (t : nat) : Prop :=
  forall w, plan env rq t = (Ok tt, w) ->
    resource_kinds w = claimed_order rq /\
    endpoint_dependencies w = [] /\
    topological (nodes w) = true.






(** The order in which the constructor builds the resources. *)
Definition construction_order (rq : Request) : list Kind :=
  (KSecurityGroup :: role_kind rq ++
   [KModel; KEncryptionKey; KEndpointConfig; KEndpoint])%list.


(** What a construct of the stack depends on, if there is one of that id. *)
Definition dependencies_of (id : string) (w : World) : option (list string) :=
  option_map dependencies (find_node id w).

(** The role as the model refers to it: by token when the stack creates it. *)
Definition role_reference (rq : Request) : list string :=
  match truthy (model_execution_role_arn rq) with
  | None => ["Model Execution Role"]
  | Some _ => []
  end.

(** ** Concrete hosts and requests *)

Module Examples.

(** What the library takes for an ARN: [arn:] in front and at least six
    components between colons. *)
Fixpoint colons (s : string) : nat :=
  match s with
  | "" => 0
  | String c s' => (if Ascii.eqb c ":" then 1 else 0) + colons s'
  end.

Definition arn_like (s : string) : bool :=
  prefix "arn:" s && (5 <=? colons s)%nat.

Definition at_time (h mi s : Z) : Datetime.datetime :=
  Datetime.mk 2024 1 1 h mi s 0 None.

(** A host in a zone one hour east of UTC, whose [n]-th clock reading falls
    [n] seconds after 2024-01-01 12:00:00 UTC. *)
Definition ticking_host : Env := {|
  clock := fun n => {| utc_wall := at_time 12 0 (Z.of_nat n);
                       local_wall := at_time 13 0 (Z.of_nat n) |};
  vpc_context := fun _ => "10.0.0.0/16";
  get_approved_package := fun _ g =>
    if String.eqb g "grp-A" then Some "pkg-7" else None;
  ProductionVariantProperty_accepts := fun _ => true;
  Role_from_role_arn_accepts := arn_like |}.

Definition variant : PyDict :=
  [ ("variant_name", PyStr "AllTraffic");
    ("initial_instance_count", PyInt 1);
    ("initial_variant_weight", PyInt 1);
    ("instance_type", PyStr "ml.m5.large") ].

(** Scenario A: role and package given by the caller. *)
Definition scenario_A : Request := {|
  id := "dep";
  sagemaker_project_id := None;
  sagemaker_project_name := None;
  model_package_arn := Some "pkg-1";
  model_package_group_name := None;
  model_execution_role_arn := Some "arn:aws:iam::123456789012:role/X";
  vpc_id := "vpc-1";
  subnet_ids := ["subnet-1"; "subnet-2"];
  model_artifacts_bucket_arn := None;
  ecr_repo_arn := None;
  endpoint_config_prod_variant := variant;
  region := "us-east-1";
  account := "123456789012" |}.

(** Scenario B: role created, package looked up in group [grp-A]. *)
Definition scenario_B : Request := {|
  id := "dep";
  sagemaker_project_id := Some "p-1";
  sagemaker_project_name := Some "project";
  model_package_arn := None;
  model_package_group_name := Some "grp-A";
  model_execution_role_arn := None;
  vpc_id := "vpc-1";
  subnet_ids := ["subnet-1"; "subnet-2"];
  model_artifacts_bucket_arn := None;
  ecr_repo_arn := None;
  endpoint_config_prod_variant := variant;
  region := "us-east-1";
  account := "123456789012" |}.

(** As scenario B, with the bucket of the model artifacts given. *)
Definition scenario_bucket : Request := {|
  id := "dep";
  sagemaker_project_id := Some "p-1";
  sagemaker_project_name := Some "project";
  model_package_arn := None;
  model_package_group_name := Some "grp-A";
  model_execution_role_arn := None;
  vpc_id := "vpc-1";
  subnet_ids := ["subnet-1"; "subnet-2"];
  model_artifacts_bucket_arn := Some "arn:aws:s3:::artifacts";
  ecr_repo_arn := Some "arn:aws:ecr:us-east-1:123456789012:repository/r";
  endpoint_config_prod_variant := variant;
  region := "us-east-1";
  account := "123456789012" |}.

(** Scenario C: neither a package nor a group. *)
Definition scenario_C : Request := {|
  id := "dep";
  sagemaker_project_id := None;
  sagemaker_project_name := None;
  model_package_arn := None;
  model_package_group_name := None;
  model_execution_role_arn := None;
  vpc_id := "vpc-1";
  subnet_ids := ["subnet-1"; "subnet-2"];
  model_artifacts_bucket_arn := None;
  ecr_repo_arn := None;
  endpoint_config_prod_variant := variant;
  region := "us-east-1";
  account := "123456789012" |}.


(** As scenario A, with a role string that is no ARN. *)
Definition scenario_refused_role : Request := {|
  id := "dep";
  sagemaker_project_id := None;
  sagemaker_project_name := None;
  model_package_arn := Some "pkg-1";
  model_package_group_name := None;
  model_execution_role_arn := Some "arn:role:X";
  vpc_id := "vpc-1";
  subnet_ids := ["subnet-1"; "subnet-2"];
  model_artifacts_bucket_arn := None;
  ecr_repo_arn := None;
  endpoint_config_prod_variant := variant;
  region := "us-east-1";
  account := "123456789012" |}.



End Examples.

(** ** Further observations of a world *)







(** The request with every optional argument that is empty left out. *)
Definition without_empty_strings (rq : Request) : Request :=
  {| id := id rq;
     sagemaker_project_id := truthy (sagemaker_project_id rq);
     sagemaker_project_name := truthy (sagemaker_project_name rq);
     model_package_arn := truthy (model_package_arn rq);
     model_package_group_name := truthy (model_package_group_name rq);
     model_execution_role_arn := truthy (model_execution_role_arn rq);
     vpc_id := vpc_id rq;
     subnet_ids := subnet_ids rq;
     model_artifacts_bucket_arn := truthy (model_artifacts_bucket_arn rq);
     ecr_repo_arn := truthy (ecr_repo_arn rq);
     endpoint_config_prod_variant := endpoint_config_prod_variant rq;
     region := region rq;
     account := account rq |}.

(** The request with another bucket and another repository. *)
Definition with_role_inputs (rq : Request)
    (bucket repo : option string) : Request :=
  {| id := id rq;
     sagemaker_project_id := sagemaker_project_id rq;
     sagemaker_project_name := sagemaker_project_name rq;
     model_package_arn := model_package_arn rq;
     model_package_group_name := model_package_group_name rq;
     model_execution_role_arn := model_execution_role_arn rq;
     vpc_id := vpc_id rq;
     subnet_ids := subnet_ids rq;
     model_artifacts_bucket_arn := bucket;
     ecr_repo_arn := repo;
     endpoint_config_prod_variant := endpoint_config_prod_variant rq;
     region := region rq;
     account := account rq |}.

Definition model_names (w : World) : list string :=
  flat_map (fun n => match props n with
                     | CfnModel _ name _ _ _ => [name]
                     | _ => []
                     end) (nodes w).

Definition endpoint_config_names (w : World) : list string :=
  flat_map (fun n => match props n with
                     | CfnEndpointConfig name _ _ => [name]
                     | _ => []
                     end) (nodes w).

(** The production variants of the endpoint configurations of the stack. *)
Definition production_variants_of (w : World) : list (list PyDict) :=
  flat_map (fun n => match props n with
                     | CfnEndpointConfig _ _ vs => [vs]
                     | _ => []
                     end) (nodes w).

(** The configuration names the endpoints of the stack are given. *)
Definition endpoint_config_references (w : World) : list string :=
  flat_map (fun n => match props n with
                     | CfnEndpoint name => [name]
                     | _ => []
                     end) (nodes w).



Definition is_digit (c : ascii) : bool :=
  ((48 <=? nat_of_ascii c) && (nat_of_ascii c <=? 57))%nat.

Fixpoint all_digits (s : string) : bool :=
  match s with
  | "" => true
  | String c s' => is_digit c && all_digits s'
  end.

(** The order of two lists of numbers, first difference first. *)
Fixpoint lexicographic (a b : list Z) : comparison :=
  match a, b with
  | [], [] => Eq
  | [], _ :: _ => Lt
  | _ :: _, [] => Gt
  | x :: a', y :: b' =>
      match (x ?= y)%Z with
      | Eq => lexicographic a' b'
      | c => c
      end
  end.

(** * The Ray operator stack

    [src/modules/eks/ray-on-eks/ray_stack.py], [RayOnEKS.__init__]. *)

Module Ray.

(** What [yaml.load_all] hands over: Python objects.  A mapping is given by
    its items, under the string keys that manifests have; [OOther] stands for
    a value of a type that cannot be subscripted (a float, a date, ...). *)
#[warnings="-register-all"]
Inductive PyObj :=
| ONone
| OBool (b : bool)
| OInt (n : Z)
| OStr (s : string)
| OList (l : list PyObj)
| ODict (d : list (string * PyObj))
| OOther (repr : string).

Inductive Exn :=
| OSError (path : string)
| YAMLError (path : string)
| KeyError (key : string)
| TypeError (subscripted : PyObj)
| ConstructError (id : string).

(** A Python [str] where the constructor measures and slices it: [len] counts
    code points and a slice cuts between them, so the text is the list of its
    code points.  The strings that are only passed on or compared stay
    [string]s. *)
Definition str := list N.

(** The text of an ASCII literal: one code point for each character. *)
Definition ascii_text (s : string) : str :=
  map N_of_ascii (list_ascii_of_string s).

(** What [yaml.load_all] yields next: a document, or the error of the parser
    on reaching a malformed one. *)
Inductive Item :=
| Document (manifest : PyObj)
| Malformed.

(** What the constructor reads from outside the stack. *)
Record Host := {
  (** [open(path)] followed by [yaml.load_all]: the stream of the file, or
      nothing if the file cannot be opened *)
  files : string -> option (list Item);
  (** [str] of an object that is neither a string, [None] nor a boolean *)
  repr_of : PyObj -> string;
  (** whether the cluster construct takes one more manifest under this id,
      having taken those already added *)
  add_manifest_accepts : list (string * PyObj) -> string -> PyObj -> bool
}.

Inductive IO :=
| opened (path : string)
| closed (path : string).

Inductive Construct :=
| OpenIdConnectProvider_from_arn (id arn : string)
| KubectlV29Layer (id : string)
| Cluster_from_attributes (id cluster_name provider kubectl_role_arn
                           kubectl_layer : string).

Record HelmChart := {
  chart_id : string;
  chart : string;
  release : string;
  repository : string;
  namespace : string;
  version : string;
  wait : bool
}.

Record World := {
  attributes : list (string * str);   (* set on [self] *)
  tags : list (string * str);
  constructs : list Construct;
  helm_charts : list HelmChart;
  manifests : list (string * PyObj);   (* id and manifest, in the order added *)
  io : list IO
}.

Definition R (A : Type) : Type := World -> (A + Exn) * World.

Definition ret {A} (a : A) : R A := fun w => (inl a, w).

Definition raise {A} (e : Exn) : R A := fun w => (inr e, w).

Definition bind {A B} (c : R A) (k : A -> R B) : R B :=
  fun w =>
    match c w with
    | (inl a, w') => k a w'
    | (inr e, w') => (inr e, w')
    end.

(** [try: c finally: f], for an [f] that does not raise. *)
Definition finally {A} (c : R A) (f : World -> World) : R A :=
  fun w => let (r, w') := c w in (r, f w').

Definition lift {A} (r : A + Exn) : R A := fun w => (r, w).

Definition add_tag (key : string) (value : str) (w : World) : World :=
  {| attributes := attributes w; tags := (tags w ++ [(key, value)])%list; constructs := constructs w;
     helm_charts := helm_charts w; manifests := manifests w; io := io w |}.

Definition add_construct (c : Construct) (w : World) : World :=
  {| attributes := attributes w; tags := tags w; constructs := (constructs w ++ [c])%list;
     helm_charts := helm_charts w; manifests := manifests w; io := io w |}.

Definition add_chart (c : HelmChart) (w : World) : World :=
  {| attributes := attributes w; tags := tags w; constructs := constructs w;
     helm_charts := (helm_charts w ++ [c])%list; manifests := manifests w;
     io := io w |}.

Definition put_manifest (id : string) (m : PyObj) (w : World) : World :=
  {| attributes := attributes w; tags := tags w; constructs := constructs w;
     helm_charts := helm_charts w; manifests := (manifests w ++ [(id, m)])%list;
     io := io w |}.

Definition log (e : IO) (w : World) : World :=
  {| attributes := attributes w; tags := tags w; constructs := constructs w;
     helm_charts := helm_charts w; manifests := manifests w;
     io := (io w ++ [e])%list |}.

Definition set_attribute (name : string) (value : str) (w : World) : World :=
  {| attributes := (attributes w ++ [(name, value)])%list; tags := tags w;
     constructs := constructs w; helm_charts := helm_charts w;
     manifests := manifests w; io := io w |}.

Definition modify (f : World -> World) : R unit := fun w => (inl tt, f w).

(** [d[key]] on the items of a dict. *)
Fixpoint lookup (key : string) (d : list (string * PyObj)) : option PyObj :=
  match d with
  | [] => None
  | (k, v) :: d' => if String.eqb k key then Some v else lookup key d'
  end.

(** [obj[key]] for a string key: only a dict can be asked, and only for a key
    it has. *)
Definition subscript (obj : PyObj) (key : string) : PyObj + Exn :=
  match obj with
  | ODict d =>
      match lookup key d with
      | Some v => inl v
      | None => inr (KeyError key)
      end
  | _ => inr (TypeError obj)
  end.

(** The value as an f-string prints it. *)
Definition format (h : Host) (v : PyObj) : string :=
  match v with
  | OStr s => s
  | ONone => "None"
  | OBool true => "True"
  | OBool false => "False"
  | _ => repr_of h v
  end.

(** [f"{manifest['metadata']['name']}"] *)
Definition manifest_id (h : Host) (manifest : PyObj) : string + Exn :=
  match subscript manifest "metadata" with
  | inl metadata =>
      match subscript metadata "name" with
      | inl name => inl (format h name)
      | inr e => inr e
      end
  | inr e => inr e
  end.

(** [cluster.add_manifest(id, manifest)] *)
Definition add_manifest (h : Host) (id : string) (m : PyObj) : R unit :=
  fun w =>
    if add_manifest_accepts h (manifests w) id m
    then (inl tt, put_manifest id m w)
    else (inr (ConstructError id), w).

(** The arguments of the constructor. *)
Record Request := {
  project_name : str;
  deployment_name : str;
  module_name : str;
  eks_cluster_name : string;
  eks_admin_role_arn : string;
  eks_openid_connect_provider_arn : string;
  eks_cluster_endpoint : string;
  eks_cert_auth_data : string;
  namespace_name : string;
  service_account_role : PyObj;
  custom_manifest_paths : list string
}.

(** [f"{project_name}-{deployment_name}-{module_name}"] *)
Definition dep_mod (rq : Request) : str :=
  (project_name rq ++ ascii_text "-" ++ deployment_name rq ++ ascii_text "-"
   ++ module_name rq)%list.

(** [dep_mod[:256] if len(dep_mod) > 256 else dep_mod] *)
Definition full_dep_mod (rq : Request) : str :=
  if (256 <? List.length (dep_mod rq))%nat
  then firstn 256 (dep_mod rq)
  else dep_mod rq.

(** [for manifest in yaml.load_all(f, ...): cluster.add_manifest(...)], on
    what is left of the stream of the file at [path]. *)
Fixpoint add_manifests (h : Host) (path : string) (stream : list Item)
    : R unit :=
  match stream with
  | [] => ret tt
  | Malformed :: _ => raise (YAMLError path)
  | Document manifest :: rest =>
      bind (lift (manifest_id h manifest)) (fun id =>
      bind (add_manifest h id manifest) (fun _ =>
      add_manifests h path rest))
  end.

(** [with open(path) as f: ...]: the file is closed however the body ends. *)
Definition with_open (h : Host) (path : string)
    (body : list Item -> R unit) : R unit :=
  match files h path with
  | None => raise (OSError path)
  | Some stream =>
      bind (modify (log (opened path))) (fun _ =>
      finally (body stream) (log (closed path)))
  end.

(** [for custom_manifest_path in custom_manifest_paths: ...] *)
Fixpoint add_custom_manifests (h : Host) (paths : list string) : R unit :=
  match paths with
  | [] => ret tt
  | path :: rest =>
      bind (with_open h path (add_manifests h path)) (fun _ =>
      add_custom_manifests h rest)
  end.

Definition ray_operator (rq : Request) : HelmChart :=
  {| chart_id := "RayOperator";
     chart := "kuberay-operator";
     release := "kuberay-operator";
     repository := "https://ray-project.github.io/kuberay-helm/";
     namespace := namespace_name rq;
     version := "1.1.1";
     wait := true |}.

Definition RayOnEKS_init (h : Host) (rq : Request) : R unit :=
  bind (modify (set_attribute "project_name" (project_name rq))) (fun _ =>
  bind (modify (set_attribute "deployment_name" (deployment_name rq))) (fun _ =>
  bind (modify (set_attribute "module_name" (module_name rq))) (fun _ =>
  bind (modify (add_tag "Deployment" (full_dep_mod rq))) (fun _ =>
  bind (modify (add_construct
          (OpenIdConnectProvider_from_arn "OIDCProvider"
             (eks_openid_connect_provider_arn rq)))) (fun _ =>
  bind (modify (add_construct (KubectlV29Layer "Kubectlv29Layer"))) (fun _ =>
  bind (modify (add_construct
          (Cluster_from_attributes "EKSCluster" (eks_cluster_name rq)
             "OIDCProvider" (eks_admin_role_arn rq) "Kubectlv29Layer")))
       (fun _ =>
  bind (modify (add_chart (ray_operator rq))) (fun _ =>
  (* Add optional custom resource (CR) manifests *)
  add_custom_manifests h (custom_manifest_paths rq))))))))).

(** The stack before the constructor has done anything. *)
Definition fresh_stack : World :=
  {| attributes := []; tags := []; constructs := []; helm_charts := [];
     manifests := []; io := [] |}.

Definition deploy (h : Host) (rq : Request) : (unit + Exn) * World :=
  RayOnEKS_init h rq fresh_stack.

(** The documents of a stream. *)
Definition documents (stream : list Item) : list PyObj :=
  flat_map (fun i => match i with Document m => [m] | Malformed => [] end)
           stream.

(** The documents of all the files of the paths, in order. *)
Definition all_documents (h : Host) (paths : list string) : list PyObj :=
  flat_map (fun p => match files h p with
                     | Some stream => documents stream
                     | None => []
                     end) paths.

Definition open_and_close (paths : list string) : list IO :=
  flat_map (fun p => [opened p; closed p]) paths.

(** The stack apart from its manifests and from the files it has read. *)
Definition frame (w : World) :=
  (attributes w, tags w, constructs w, helm_charts w).

(** The manifest is a mapping whose [metadata] is a mapping with a [name],
    and the id is that name as an f-string prints it. *)
Definition named_by (h : Host) (e : string * PyObj) : Prop :=
  exists d metadata name,
    snd e = ODict d /\
    lookup "metadata" d = Some (ODict metadata) /\
    lookup "name" metadata = Some name /\
    fst e = format h name.

(** The names under which the documents of the files would be added. *)
Definition all_ids (h : Host) (paths : list string) : list (string + Exn) :=
  map (manifest_id h) (all_documents h paths).

End Ray.

Module RayExamples.
Import Ray.

Definition ray_cluster : PyObj :=
  ODict [ ("apiVersion", OStr "ray.io/v1");
          ("kind", OStr "RayCluster");
          ("metadata", ODict [("name", OStr "cluster")]) ].

Definition ray_job : PyObj :=
  ODict [ ("kind", OStr "RayJob");
          ("metadata", ODict [("name", OStr "job")]) ].

(** A host with two manifest files: one with two documents, and one whose
    second document is empty. *)
Definition host : Host := {|
  files := fun p =>
    if String.eqb p "good.yaml" then Some [Document ray_cluster; Document ray_job]
    else if String.eqb p "empty.yaml" then Some [Document ray_job; Document ONone]
    else None;
  repr_of := fun _ => "?";
  add_manifest_accepts := fun ms id _ =>
    negb (existsb (String.eqb id) (map fst ms)) |}.

Definition request (paths : list string) : Request := {|
  project_name := ascii_text "proj";
  deployment_name := ascii_text "dep";
  module_name := ascii_text "ray";
  eks_cluster_name := "cluster";
  eks_admin_role_arn := "arn:aws:iam::123456789012:role/admin";
  eks_openid_connect_provider_arn :=
    "arn:aws:iam::123456789012:oidc-provider/oidc";
  eks_cluster_endpoint := "https://eks";
  eks_cert_auth_data := "data";
  namespace_name := "ray";
  service_account_role := ONone;
  custom_manifest_paths := paths |}.

(** A request whose project name is 300 times the letter e with an acute
    accent, U+00E9: one code point, two bytes in UTF-8. *)
Definition accented_request : Request := {|
  project_name := repeat 233%N 300;
  deployment_name := ascii_text "dep";
  module_name := ascii_text "ray";
  eks_cluster_name := "cluster";
  eks_admin_role_arn := "arn:aws:iam::123456789012:role/admin";
  eks_openid_connect_provider_arn :=
    "arn:aws:iam::123456789012:oidc-provider/oidc";
  eks_cluster_endpoint := "https://eks";
  eks_cert_auth_data := "data";
  namespace_name := "ray";
  service_account_role := ONone;
  custom_manifest_paths := [] |}.

End RayExamples.

(** * Properties *)

Lemma find_model_name (d : PyDict) v :
  find (fun kv => dict_has_key (fst kv) [("model_name", v)]) d =
  find (fun kv => String.eqb (fst kv) "model_name") d.
Proof.
  induction d as [|[k x] d IH]; cbn [find fst]; [reflexivity|].
  unfold dict_has_key at 1. cbn [existsb map fst]. rewrite orb_false_r, IH.
  reflexivity.
Qed.

Lemma find_key_spec (d : PyDict) :
  match find (fun kv => String.eqb (fst kv) "model_name") d with
  | Some (k, _) => k = "model_name" /\ dict_has_key "model_name" d = true
  | None => dict_has_key "model_name" d = false
  end.
Proof.
  unfold dict_has_key.
  induction d as [|[k x] d IH]; cbn [find existsb map fst]; [reflexivity|].
  rewrite (String.eqb_sym "model_name" k).
  destruct (String.eqb_spec k "model_name") as [->|Hk]; cbn [orb].
  - split; reflexivity.
  - exact IH.
Qed.

(** The call of [ProductionVariantProperty] in the constructor, by cases. *)
Lemma ProductionVariantProperty_model_name env v (d : PyDict) w :
  ProductionVariantProperty env [("model_name", v)] d w =
  if dict_has_key "model_name" d then (Raise duplicate_model_name, w)
  else if ProductionVariantProperty_accepts env (("model_name", v) :: d)
       then (Ok (("model_name", v) :: d), w)
       else (Raise (TypeError (unexpected_arguments "ProductionVariantProperty")), w).
Proof.
  unfold ProductionVariantProperty, call_with_keywords, bind.
  rewrite find_model_name.
  pose proof (find_key_spec d) as H.
  destruct (find _ d) as [[k x]|].
  - destruct H as [-> ->]. reflexivity.
  - rewrite H. simpl.
    destruct (ProductionVariantProperty_accepts env _); reflexivity.
Qed.

(** ** Strings *)

Lemma length_append (s t : string) :
  String.length (s ++ t) = String.length s + String.length t.
Proof.
  induction s as [|c s IH]; simpl; [reflexivity|]. now rewrite IH.
Qed.

Lemma substring_whole (t : string) : substring 0 (String.length t) t = t.
Proof.
  induction t as [|c t IH]; simpl; [reflexivity|]. now rewrite IH.
Qed.

Lemma substring_skip (s t : string) n :
  substring (String.length s) n (s ++ t) = substring 0 n t.
Proof.
  induction s as [|c s IH]; simpl; [reflexivity|]. exact IH.
Qed.

(** The timestamp component of a name that ends in fourteen characters [ts]
    is [ts]. *)
Lemma timestamp_component_append (s ts : string) :
  String.length ts = 14 -> timestamp_component (s ++ ts) = ts.
Proof.
  intros L. unfold timestamp_component.
  rewrite length_append, L.
  replace (String.length s + 14 - 14) with (String.length s) by lia.
  rewrite substring_skip, <- L. apply substring_whole.
Qed.

(** ** Timestamps *)

Module TimestampFacts.
Import Datetime.
Local Open Scope Z_scope.

Lemma zpad_append w : forall n acc r, zpad w n acc ++ r = zpad w n (acc ++ r).
Proof.
  induction w as [|w IH]; intros n acc r; simpl; [reflexivity|].
  now rewrite IH.
Qed.

Lemma zpad_length w : forall n acc,
  String.length (zpad w n acc) = (w + String.length acc)%nat.
Proof.
  induction w as [|w IH]; intros n acc; simpl; [reflexivity|].
  rewrite IH. simpl. lia.
Qed.

Lemma digit_inj a b : 0 <= a <= 9 -> 0 <= b <= 9 -> digit a = digit b -> a = b.
Proof.
  intros Ha Hb E. unfold digit in E.
  apply (f_equal N_of_ascii) in E.
  rewrite !N_ascii_embedding in E by lia.
  lia.
Qed.

(** Distinct numbers below [10 ^ w] print as distinct [w]-digit strings. *)
Lemma zpad_inj w : forall n m r r',
  0 <= n < 10 ^ Z.of_nat w -> 0 <= m < 10 ^ Z.of_nat w ->
  zpad w n r = zpad w m r' -> n = m /\ r = r'.
Proof.
  induction w as [|w IH]; intros n m r r' Hn Hm E.
  - simpl in *. split; [lia | exact E].
  - rewrite Nat2Z.inj_succ, Z.pow_succ_r in Hn, Hm by lia.
    simpl in E. apply IH in E.
    + destruct E as [Eq Er]. injection Er as Ed ->.
      apply digit_inj in Ed.
      * split; [|reflexivity].
        rewrite (Z.div_mod n 10), (Z.div_mod m 10) by lia. congruence.
      * pose proof (Z.mod_pos_bound n 10). lia.
      * pose proof (Z.mod_pos_bound m 10). lia.
    + split; [apply Z.div_pos; lia | apply Z.div_lt_upper_bound; lia].
    + split; [apply Z.div_pos; lia | apply Z.div_lt_upper_bound; lia].
Qed.

(** What [get_timestamp] prints, directive by directive. *)
Lemma timestamp_of_unfold i :
  timestamp_of i =
  let d := datetime_now i in
  zpad (year_digits (year d)) (year d) (zpad 2 (month d) (zpad 2 (day d)
    (zpad 2 (hour d) (zpad 2 (minute d) (zpad 2 (second d) ""))))).
Proof.
  unfold timestamp_of.
  cbn [strftime directive Ascii.eqb Bool.eqb replace_tzinfo
       year month day hour minute second].
  cbv zeta. rewrite !zpad_append. reflexivity.
Qed.

Lemma year_digits_valid d : valid d -> year_digits (year d) = 4%nat.
Proof.
  unfold valid, year_digits. intros V.
  destruct (Z.ltb_spec (year d) 10); [lia|].
  destruct (Z.ltb_spec (year d) 100); [lia|].
  destruct (Z.ltb_spec (year d) 1000); [lia|]. reflexivity.
Qed.

Lemma timestamp_length i :
  valid (datetime_now i) -> String.length (timestamp_of i) = 14%nat.
Proof.
  intros V. rewrite timestamp_of_unfold. cbv zeta.
  rewrite (year_digits_valid V), !zpad_length. reflexivity.
Qed.

(** The timestamp is a function of the local wall-clock second. *)
Lemma timestamp_same_second i j :
  to_second (datetime_now i) = to_second (datetime_now j) ->
  timestamp_of i = timestamp_of j.
Proof.
  intros E. rewrite !timestamp_of_unfold. cbv zeta.
  unfold to_second in E. injection E as -> -> -> -> -> ->. reflexivity.
Qed.

(** ... and, on valid dates, tells wall-clock seconds apart. *)
Lemma timestamp_inj i j :
  valid (datetime_now i) -> valid (datetime_now j) ->
  timestamp_of i = timestamp_of j ->
  to_second (datetime_now i) = to_second (datetime_now j).
Proof.
  intros Vi Vj E. rewrite !timestamp_of_unfold in E. cbv zeta in E.
  rewrite (year_digits_valid Vi), (year_digits_valid Vj) in E.
  unfold valid in Vi, Vj.
  apply zpad_inj in E; [|simpl; lia|simpl; lia]. destruct E as [Ey E].
  apply zpad_inj in E; [|simpl; lia|simpl; lia]. destruct E as [Em E].
  apply zpad_inj in E; [|simpl; lia|simpl; lia]. destruct E as [Ed E].
  apply zpad_inj in E; [|simpl; lia|simpl; lia]. destruct E as [Eh E].
  apply zpad_inj in E; [|simpl; lia|simpl; lia]. destruct E as [Emi E].
  apply zpad_inj in E; [|simpl; lia|simpl; lia]. destruct E as [Es _].
  unfold to_second. congruence.
Qed.

End TimestampFacts.

(** ** Running the constructor by cases *)

Lemma truthy_Some o s : truthy o = Some s <-> o = Some s /\ s <> "".
Proof.
  unfold truthy. destruct o as [x|]; [|split; [discriminate | now intros [? _]]].
  destruct (String.eqb_spec x "") as [E|N]; split; intros H.
  - discriminate.
  - destruct H as [H C]. congruence.
  - split; congruence.
  - tauto.
Qed.

Lemma truthy_None o : truthy o = None <-> o = None \/ o = Some "".
Proof.
  unfold truthy. destruct o as [x|]; [|tauto].
  destruct (String.eqb_spec x "") as [E|N]; split; intros H.
  - right. congruence.
  - reflexivity.
  - discriminate.
  - destruct H; congruence.
Qed.

Ltac split_in H :=
  repeat match type of H with
  | context [truthy ?x] => destruct (truthy x) eqn:? in *
  | context [get_approved_package ?e ?r ?g] =>
      destruct (get_approved_package e r g) eqn:? in *
  | context [Role_from_role_arn_accepts ?e ?a] =>
      destruct (Role_from_role_arn_accepts e a) eqn:? in *
  end.

Ltac split_variant_in H :=
  rewrite ?ProductionVariantProperty_model_name in H;
  repeat match goal with
  | E : dict_has_key _ _ = _ |- _ => rewrite E in H
  end;
  repeat match type of H with
  | context [dict_has_key ?k ?d] => destruct (dict_has_key k d) eqn:? in *
  | context [ProductionVariantProperty_accepts ?e ?d] =>
      destruct (ProductionVariantProperty_accepts e d) eqn:? in *
  end.

Lemma tag_when_given_run key value w :
  tag_when_given key value w =
  (Ok tt, with_tags (fun l => (l ++ given_tag key value)%list) w).
Proof.
  unfold tag_when_given, given_tag.
  destruct (truthy value); [reflexivity|].
  unfold ret, with_tags. rewrite app_nil_r. now destruct w.
Qed.

Ltac run_in H :=
  lazy -[timestamp_of append ProductionVariantProperty truthy
         tag_when_given given_tag repository_scope
         id sagemaker_project_id sagemaker_project_name model_package_arn
         model_package_group_name model_execution_role_arn vpc_id subnet_ids
         model_artifacts_bucket_arn ecr_repo_arn endpoint_config_prod_variant
         region account
         clock vpc_context get_approved_package Role_from_role_arn_accepts
         ProductionVariantProperty_accepts dict_has_key
         duplicate_model_name missing_package_message
         baseline_statement kms_statement unscoped_bucket_statement
         ecr_statement IAM5_suppression] in H.

(** Every way the constructor can go, with the outcome and the world it
    leaves computed in each. *)
Ltac outcomes H :=
  unfold plan, DeployEndpointStack_init, resolve_role, resolve_package in H;
  unfold bind at 1 in H; rewrite tag_when_given_run in H;
  unfold bind at 1 in H; rewrite tag_when_given_run in H;
  repeat match goal with
  | E : truthy _ = _ |- _ => rewrite E in H
  | E : get_approved_package _ _ _ = _ |- _ => rewrite E in H
  | E : Role_from_role_arn_accepts _ _ = _ |- _ => rewrite E in H
  end;
  split_in H; try discriminate;
  run_in H; split_variant_in H; try discriminate;
  run_in H;
  first [ discriminate H | injection H as <- <- | injection H as <- ].

(** C3. When the caller gives the execution role, nothing is attached to a
    role: no statement is added and no bucket grant is made, no role is
    created, no bucket imported and nothing suppressed, and a model of the
    stack runs under just the given ARN.  If the library takes the ARN, the
    role of the stack is a reference to it with no permissions of its own; if
    the library refuses it, the construction ends there, with the security
    group as its only resource.  This holds however the construction ends. *)
Theorem supplied_role_is_passed_through env rq t arn r w :
  truthy (model_execution_role_arn rq) = Some arn ->
  plan env rq t = (r, w) ->
  role_policy w = [] /\
  filter is_role_grant (trace w) = [] /\
  nodes_of_kind KRole w = [] /\
  bucket_imports w = [] /\
  suppressions w = [] /\
  (forall a, In a (model_roles w) -> a = Lit arn) /\
  (if Role_from_role_arn_accepts env arn
   then
     find_node "Model Execution Role" w =
       Some {| cid := "Model Execution Role";
               props := RoleFromArn arn [];
               depends_on := [] |} /\
     self_model_execution_role (self w) = Some "Model Execution Role"
   else
     r = Raise (RuntimeError arn) /\
     find_node "Model Execution Role" w = None /\
     self_model_execution_role (self w) = None /\
     resource_kinds w = [KSecurityGroup]).
Proof.
  intros Hrole H.
  outcomes H.
  all: repeat split; try reflexivity.
  all: intros a Ha; cbn in Ha; intuition congruence.
Qed.

Lemma supplied_role_is_passed_through_witness :
  exists r w,
    plan Examples.ticking_host Examples.scenario_A 0 = (r, w) /\
    role_policy w = [] /\ filter is_role_grant (trace w) = [] /\
    model_roles w = [Lit "arn:aws:iam::123456789012:role/X"].
Proof.
  pose (p := plan Examples.ticking_host Examples.scenario_A 0).
  exists (fst p), (snd p). split; [apply surjective_pairing|].
  destruct (supplied_role_is_passed_through
              Examples.ticking_host Examples.scenario_A 0
              eq_refl (surjective_pairing p))
    as (P & G & _).
  split; [exact P|]. split; [exact G|]. reflexivity.
Defined.

(** A role string that the library does not take for an ARN ends the
    construction at the role, after the lookup of the VPC and the security
    group. *)
Example refused_role_plan :
  let (r, w) := plan Examples.ticking_host Examples.scenario_refused_role 0 in
  r = Raise (RuntimeError "arn:role:X") /\
  map cid (nodes w) = ["VPC"; "Security Group"] /\
  trace w = [Vpc_from_lookup_called "vpc-1"] /\
  self_model_execution_role (self w) = None.
Proof. vm_compute. repeat split. Qed.

(** ** Names and timestamps *)

Lemma append_assoc (a b c : string) : (a ++ b) ++ c = a ++ b ++ c.
Proof.
  induction a as [|x a IH]; simpl; [reflexivity|]. now rewrite IH.
Qed.

Lemma name_timestamp (prefix kind : string) i :
  Datetime.valid (datetime_now i) ->
  timestamp_component (prefix ++ kind ++ timestamp_of i) = timestamp_of i.
Proof.
  intros V. rewrite <- append_assoc.
  now apply timestamp_component_append, TimestampFacts.timestamp_length.
Qed.

(** A completed construction reads the clock twice, first for the name of the
    model and then for the name of the endpoint configuration. *)
Lemma completed_names env rq t w :
  plan env rq t = (Ok tt, w) ->
  ticks w = S (S t) /\
  generated_names w =
    [ id rq ++ "-model-" ++ timestamp_of (clock env t);
      id rq ++ "-conf-" ++ timestamp_of (clock env (S t)) ].
Proof.
  intros H. outcomes H; split; reflexivity.
Qed.

(** The names of one completed plan end in the timestamps of readings [t] and
    [S t]. *)
Lemma completed_name_reading env rq t w n :
  plan env rq t = (Ok tt, w) -> In n (generated_names w) ->
  exists k,
    In k [t; S t] /\
    (Datetime.valid (datetime_now (clock env k)) ->
     timestamp_component n = timestamp_of (clock env k)).
Proof.
  intros H Hn. apply completed_names in H. destruct H as [_ E].
  rewrite E in Hn. destruct Hn as [<-|[<-|[]]].
  - exists t. split; [now left | apply name_timestamp].
  - exists (S t). split; [right; now left | apply name_timestamp].
Qed.

Lemma valid_same_second i j :
  Datetime.to_second (datetime_now i) = Datetime.to_second (datetime_now j) ->
  Datetime.valid (datetime_now i) -> Datetime.valid (datetime_now j).
Proof.
  unfold Datetime.to_second, Datetime.valid.
  intros [= -> -> -> -> -> ->]. tauto.
Qed.

(** C1 (counterexample). On a host whose clock moves on by a second between
    the two readings, the plan of scenario A completes with two clock readings
    and two names whose timestamps differ. *)
Lemma names_differ_across_a_tick :
  ~ one_timestamp_per_plan Examples.ticking_host Examples.scenario_A 0.
Proof.
  intros C.
  specialize (C (snd (plan Examples.ticking_host Examples.scenario_A 0)) eq_refl
                "dep-model-20240101130000" "dep-conf-20240101130001").
  assert (E : timestamp_component "dep-model-20240101130000" =
              timestamp_component "dep-conf-20240101130001").
  { apply C; vm_compute; tauto. }
  vm_compute in E. discriminate E.
Qed.

(** C1 (amended). Every completed plan reads the clock once for each name it
    generates: the name of the model ends in the timestamp of the first
    reading and the name of the endpoint configuration in that of the second.
    When both readings fall in the same wall-clock second (of a valid date)
    the two names carry the same timestamp, and two plans whose readings (on
    valid dates) fall in different wall-clock seconds have no name in
    common. *)
Theorem names_carry_their_own_reading env rq t w :
  plan env rq t = (Ok tt, w) ->
  ticks w = S (S t) /\
  generated_names w =
    [ id rq ++ "-model-" ++ timestamp_of (clock env t);
      id rq ++ "-conf-" ++ timestamp_of (clock env (S t)) ] /\
  (Datetime.valid (datetime_now (clock env t)) ->
   wall_second env t = wall_second env (S t) -> names_share_timestamp w) /\
  (forall rq' t' w',
     plan env rq' t' = (Ok tt, w') ->
     (forall k, In k [t; S t; t'; S t'] ->
        Datetime.valid (datetime_now (clock env k))) ->
     (forall i j, In i [t; S t] -> In j [t'; S t'] ->
        wall_second env i <> wall_second env j) ->
     forall n, In n (generated_names w) -> ~ In n (generated_names w')).
Proof.
  intros H. destruct (completed_names _ _ _ H) as [Ht En].
  split; [exact Ht|]. split; [exact En|]. split.
  - intros V Es a b Ha Hb. unfold wall_second in Es.
    assert (V' : Datetime.valid (datetime_now (clock env (S t))))
      by exact (valid_same_second _ _ Es V).
    destruct (completed_name_reading _ _ _ _ H Ha) as (i & Hi & Ei).
    destruct (completed_name_reading _ _ _ _ H Hb) as (j & Hj & Ej).
    simpl in Hi, Hj.
    rewrite Ei, Ej by (intuition (subst; assumption)).
    apply TimestampFacts.timestamp_same_second.
    intuition (subst; congruence).
  - intros rq' t' w' H' V D n Hn Hn'.
    destruct (completed_name_reading _ _ _ _ H Hn) as (i & Hi & Ei).
    destruct (completed_name_reading _ _ _ _ H' Hn') as (j & Hj & Ej).
    assert (Vi : Datetime.valid (datetime_now (clock env i)))
      by (apply V; simpl in *; tauto).
    assert (Vj : Datetime.valid (datetime_now (clock env j)))
      by (apply V; simpl in *; tauto).
    apply (D i j Hi Hj). unfold wall_second.
    apply TimestampFacts.timestamp_inj; [exact Vi | exact Vj |].
    rewrite <- (Ei Vi), <- (Ej Vj). reflexivity.
Qed.

Lemma names_carry_their_own_reading_witness :
  exists w w',
    plan Examples.ticking_host Examples.scenario_A 0 = (Ok tt, w) /\
    plan Examples.ticking_host Examples.scenario_B 2 = (Ok tt, w') /\
    ticks w = 2 /\
    forall n, In n (generated_names w) -> ~ In n (generated_names w').
Proof.
  pose (p := plan Examples.ticking_host Examples.scenario_A 0).
  pose (p' := plan Examples.ticking_host Examples.scenario_B 2).
  exists (snd p), (snd p').
  split; [reflexivity|]. split; [reflexivity|].
  destruct (names_carry_their_own_reading
              Examples.ticking_host Examples.scenario_A 0 eq_refl)
    as (T & _ & _ & D).
  split; [exact T|].
  apply (D Examples.scenario_B 2 (snd p') eq_refl).
  - intros k Hk. simpl in Hk.
    repeat (destruct Hk as [<-|Hk]; [vm_compute; intuition discriminate|]).
    destruct Hk.
  - intros i j Hi Hj. simpl in Hi, Hj.
    repeat (destruct Hi as [<-|Hi]; [|]); try destruct Hi;
    repeat (destruct Hj as [<-|Hj]; [|]); try destruct Hj;
    vm_compute; discriminate.
Defined.

(** ** The timestamp is the local wall clock *)

(** [get_timestamp] prints the fields of the naive local time: attaching the
    UTC label does not convert them. *)
Lemma get_timestamp_prints_local_time env w :
  fst (get_timestamp env w) =
  Ok (Datetime.strftime "%Y%m%d%H%M%S"
        (Datetime.replace_tzinfo (local_wall (clock env (ticks w)))
                                 Datetime.utc)).
Proof. reflexivity. Qed.

(** C6 (the code at the failing input). On a host one hour east of UTC, at
    2024-01-01 12:00:00 UTC, [get_timestamp] returns 20240101130000, the local
    wall-clock time, where the current time in UTC prints as 20240101120000;
    the names of the plan carry the local time. *)
Theorem timestamp_is_local_not_utc :
  fst (get_timestamp Examples.ticking_host (fresh_stack 0))
    = Ok "20240101130000" /\
  utc_timestamp_of (clock Examples.ticking_host 0) = "20240101120000" /\
  generated_names (snd (plan Examples.ticking_host Examples.scenario_A 0))
    = [ "dep-model-20240101130000"; "dep-conf-20240101130001" ].
Proof. repeat split; vm_compute; reflexivity. Qed.

(** ** Failing for want of a package *)




(** ** The permissions of a created role *)




Ltac finish :=
  repeat match goal with
  | |- _ /\ _ => split
  | |- _ <-> _ => split
  | |- forall _, _ => intro
  | E : Some _ = Some _ |- _ => injection E as <-
  | E : _ /\ _ |- _ => destruct E
  | E : get_approved_package ?e ?r ?g = _
    |- context [get_approved_package ?e ?r ?g] => rewrite E
  end;
  try reflexivity; try discriminate;
  try (unfold missing_package_message in *; congruence).




(** ** The package of the model *)




(** ** The order of construction *)

(** C7 (counterexample). In scenario A the security group is built first and
    the model before the key, so the resources do not come in the claimed
    order; the endpoint moreover has been told to depend on its
    configuration. *)
Lemma model_precedes_key :
  ~ built_in_claimed_order Examples.ticking_host Examples.scenario_A 0.
Proof.
  intros C. destruct (C _ eq_refl) as (K & _).
  vm_compute in K. discriminate K.
Qed.

Example scenario_A_order :
  let w := snd (plan Examples.ticking_host Examples.scenario_A 0) in
  resource_kinds w =
    [KSecurityGroup; KModel; KEncryptionKey; KEndpointConfig; KEndpoint] /\
  endpoint_dependencies w = ["Endpoint Configuration"].
Proof. split; reflexivity. Qed.

(** C7 (amended). The resources are built in the order SecurityGroup, Role
    (if the stack creates it), Model, EncryptionKey, EndpointConfig, Endpoint.
    The model depends on the security group and on a created role, the
    endpoint configuration on the key and on the model, and the endpoint on
    the endpoint configuration: it is given the name of the configuration and
    is also told to depend on the configuration node.  However the
    construction ends, every node of the list depends only on nodes that
    stand earlier in it. *)
Theorem built_in_construction_order env rq t r w :
  plan env rq t = (r, w) ->
  topological (nodes w) = true /\
  (r = Ok tt ->
     resource_kinds w = construction_order rq /\
     dependencies_of "Model" w =
       Some (role_reference rq ++ ["Security Group"])%list /\
     dependencies_of "Endpoint Configuration" w =
       Some ["Endpoint Key"; "Model"] /\
     dependencies_of "Endpoint" w = Some ["Endpoint Configuration"] /\
     map props (nodes_of_kind KEndpoint w) =
       [CfnEndpoint (id rq ++ "-conf-" ++ timestamp_of (clock env (S t)))] /\
     endpoint_dependencies w = ["Endpoint Configuration"]).
Proof.
  intros H. unfold construction_order, role_reference, role_kind.
  outcomes H; finish.
Qed.

Lemma built_in_construction_order_witness :
  exists w,
    plan Examples.ticking_host Examples.scenario_B 0 = (Ok tt, w) /\
    topological (nodes w) = true /\
    resource_kinds w =
      [KSecurityGroup; KRole; KModel; KEncryptionKey; KEndpointConfig;
       KEndpoint].
Proof.
  pose (p := plan Examples.ticking_host Examples.scenario_B 0).
  exists (snd p). split; [reflexivity|].
  destruct (built_in_construction_order
              Examples.ticking_host Examples.scenario_B 0
              (surjective_pairing p)) as (T & O).
  split; [exact T|]. exact (proj1 (O eq_refl)).
Defined.

(** ** A [model_name] among the keys of the variant *)





(** ** The encryption key *)




(** ** The scenarios *)

(** Scenario A: with role and package given, the stack has five resources,
    the role is a reference and nothing is suppressed. *)
Example scenario_A_plan :
  let (r, w) := plan Examples.ticking_host Examples.scenario_A 0 in
  r = Ok tt /\
  resource_kinds w =
    [KSecurityGroup; KModel; KEncryptionKey; KEndpointConfig; KEndpoint] /\
  model_roles w = [Lit "arn:aws:iam::123456789012:role/X"] /\
  suppressions w = [] /\
  trace w = [Vpc_from_lookup_called "vpc-1";
             datetime_now_called 0; datetime_now_called 1].
Proof. vm_compute. repeat split. Qed.

(** Scenario B: the package of the model is the one the registry returns for
    the group, and the created role carries its four statements. *)
Example scenario_B_plan :
  let (r, w) := plan Examples.ticking_host Examples.scenario_B 0 in
  r = Ok tt /\
  model_packages w = [["pkg-7"]] /\
  role_policy w =
    [ Statement baseline_statement;
      Statement (kms_statement Examples.scenario_B);
      Statement unscoped_bucket_statement;
      Statement (ecr_statement "*") ] /\
  tags w = [("sagemaker:project-id", "p-1");
            ("sagemaker:project-name", "project")].
Proof. vm_compute. repeat split. Qed.

(** Scenario C: the error, and what stands in the stack when it is raised. *)
Example scenario_C_plan :
  let (r, w) := plan Examples.ticking_host Examples.scenario_C 0 in
  r = Raise (ValueError missing_package_message) /\
  map cid (nodes w) = ["VPC"; "Security Group"; "Model Execution Role"] /\
  filter is_external_lookup (trace w) = [Vpc_from_lookup_called "vpc-1"].
Proof. vm_compute. repeat split. Qed.


(** * More of the constructor *)

(** ** How a construction ends *)



(** ** Tags, network and the attributes of the stack *)

(** X2. The stack is tagged with the project id and the project name, in this
    order, each exactly when it is given and not empty, and with nothing else,
    however the construction ends. *)
Theorem tags_follow_the_project env rq t r w :
  plan env rq t = (r, w) ->
  tags w = (given_tag "sagemaker:project-id" (sagemaker_project_id rq) ++
            given_tag "sagemaker:project-name" (sagemaker_project_name rq))%list.
Proof.
  intros H. outcomes H; reflexivity.
Qed.

Lemma tags_follow_the_project_witness :
  tags (snd (plan Examples.ticking_host Examples.scenario_B 0))
  = [("sagemaker:project-id", "p-1"); ("sagemaker:project-name", "project")].
Proof.
  exact (@tags_follow_the_project Examples.ticking_host Examples.scenario_B 0
           _ _ (surjective_pairing _)).
Defined.

(** X3. Every construction, however it ends, looks up the VPC of the request and
    builds exactly one security group in it: all outbound traffic allowed, and
    one ingress rule, all TCP from the address range of that VPC. *)
Theorem one_security_group env rq t r w :
  plan env rq t = (r, w) ->
  nodes_of_kind KSecurityGroup w =
    [ {| cid := "Security Group";
         props := SecurityGroup "VPC" true
                    [(Peer_ipv4 (vpc_context env (vpc_id rq)), Port_all_tcp)];
         depends_on := [] |} ] /\
  find_node "VPC" w =
    Some {| cid := "VPC";
            props := VpcLookup (vpc_id rq) (vpc_context env (vpc_id rq));
            depends_on := [] |}.
Proof.
  intros H. outcomes H; split; reflexivity.
Qed.

Lemma one_security_group_witness :
  map props
    (nodes_of_kind KSecurityGroup
       (snd (plan Examples.ticking_host Examples.scenario_C 0)))
  = [SecurityGroup "VPC" true [(Peer_ipv4 "10.0.0.0/16", Port_all_tcp)]].
Proof.
  rewrite (proj1 (@one_security_group
                    Examples.ticking_host Examples.scenario_C 0
                    _ _ (surjective_pairing _))).
  reflexivity.
Defined.





(** ** How the resources refer to each other *)

(** X6. In a completed stack the one production variant of the endpoint
    configuration is the variant of the caller, key for key and in its order,
    behind a [model_name] that is the name given to the model of the stack;
    and the endpoint is given the name of the endpoint configuration of the
    stack. *)
Theorem names_are_consistent env rq t w :
  plan env rq t = (Ok tt, w) ->
  exists m c,
    model_names w = [m] /\
    endpoint_config_names w = [c] /\
    production_variants_of w =
      [[ ("model_name", PyStr m) :: endpoint_config_prod_variant rq ]] /\
    endpoint_config_references w = [c].
Proof.
  intros H.
  outcomes H; eexists; eexists; repeat split; reflexivity.
Qed.

Lemma names_are_consistent_witness :
  exists m c,
    let w := snd (plan Examples.ticking_host Examples.scenario_A 0) in
    model_names w = [m] /\
    endpoint_config_names w = [c] /\
    production_variants_of w =
      [[ ("model_name", PyStr m) :: Examples.variant ]] /\
    endpoint_config_references w = [c].
Proof.
  exact (@names_are_consistent Examples.ticking_host Examples.scenario_A 0
           _ eq_refl).
Defined.



(** X8. No two constructs of the stack have the same id, however the construction
    ends. *)
Theorem construct_ids_are_distinct env rq t r w :
  plan env rq t = (r, w) -> NoDup (map cid (nodes w)).
Proof.
  intros H.
  outcomes H; cbn; repeat constructor; cbn; intuition discriminate.
Qed.

Lemma construct_ids_are_distinct_witness :
  NoDup (map cid (nodes (snd (plan Examples.ticking_host
                                Examples.scenario_bucket 0)))).
Proof.
  exact (@construct_ids_are_distinct
           Examples.ticking_host Examples.scenario_bucket 0
           _ _ (surjective_pairing _)).
Defined.

(** ** Arguments that make no difference *)

Lemma truthy_idempotent o : truthy (truthy o) = truthy o.
Proof.
  unfold truthy. destruct o as [s|]; [|reflexivity].
  destruct (String.eqb s "") eqn:E; [reflexivity|]. now rewrite E.
Qed.

(** X9. An optional argument given as the empty string is an argument left out:
    the constructor does the same on a request and on the request with its
    empty optional arguments removed. *)
Theorem empty_string_is_absent env rq t :
  plan env (without_empty_strings rq) t = plan env rq t.
Proof.
  unfold plan, DeployEndpointStack_init, resolve_role, resolve_package,
    tag_when_given, repository_scope, kms_statement.
  cbn [without_empty_strings id sagemaker_project_id sagemaker_project_name
       model_package_arn model_package_group_name model_execution_role_arn
       vpc_id subnet_ids model_artifacts_bucket_arn ecr_repo_arn
       endpoint_config_prod_variant region account].
  rewrite !truthy_idempotent. reflexivity.
Qed.

(** X10. With the execution role given, the bucket of the artifacts and the
    image repository are not read: other values for them leave the outcome
    and the stack as they are. *)
Theorem supplied_role_ignores_role_inputs env rq t arn bucket repo :
  truthy (model_execution_role_arn rq) = Some arn ->
  plan env (with_role_inputs rq bucket repo) t = plan env rq t.
Proof.
  intros Hrole.
  unfold plan, DeployEndpointStack_init, resolve_role, resolve_package.
  cbn [with_role_inputs id sagemaker_project_id sagemaker_project_name
       model_package_arn model_package_group_name model_execution_role_arn
       vpc_id subnet_ids model_artifacts_bucket_arn ecr_repo_arn
       endpoint_config_prod_variant region account].
  rewrite Hrole. reflexivity.
Qed.

Lemma supplied_role_ignores_role_inputs_witness :
  plan Examples.ticking_host
    (with_role_inputs Examples.scenario_A
       (Some "arn:aws:s3:::artifacts")
       (Some "arn:aws:ecr:us-east-1:123456789012:repository/r"))
    0
  = plan Examples.ticking_host Examples.scenario_A 0.
Proof.
  exact (@supplied_role_ignores_role_inputs
           Examples.ticking_host Examples.scenario_A 0
           "arn:aws:iam::123456789012:role/X"
           (Some "arn:aws:s3:::artifacts")
           (Some "arn:aws:ecr:us-east-1:123456789012:repository/r")
           eq_refl).
Defined.

(** ** The statements of a created role that name every resource *)





(** ** The shape and the order of timestamps *)

Module OrderFacts.
Import Datetime.
Local Open Scope Z_scope.

Lemma digit_code d : 0 <= d <= 9 -> N_of_ascii (digit d) = Z.to_N (48 + d).
Proof. intros H. unfold digit. apply N_ascii_embedding. lia. Qed.

Lemma digit_is_digit d : 0 <= d <= 9 -> is_digit (digit d) = true.
Proof.
  intros H. unfold is_digit, nat_of_ascii. rewrite (@digit_code d H).
  apply andb_true_iff. split; apply Nat.leb_le; lia.
Qed.

Lemma zpad_all_digits w : forall n acc,
  all_digits acc = true -> all_digits (zpad w n acc) = true.
Proof.
  induction w as [|w IH]; intros n acc H; simpl; [exact H|].
  apply IH. simpl. rewrite H, digit_is_digit; [reflexivity|].
  pose proof (Z.mod_pos_bound n 10). lia.
Qed.

Lemma digit_compare a b :
  0 <= a <= 9 -> 0 <= b <= 9 -> Ascii.compare (digit a) (digit b) = (a ?= b).
Proof.
  intros Ha Hb. unfold Ascii.compare.
  rewrite (@digit_code a Ha), (@digit_code b Hb), Z2N.inj_compare by lia.
  apply Z.add_compare_mono_l.
Qed.

Lemma compare_by_digits n m (X : comparison) :
  match n / 10 ?= m / 10 with
  | Eq => match n mod 10 ?= m mod 10 with Eq => X | c => c end
  | c => c
  end = match n ?= m with Eq => X | c => c end.
Proof.
  pose proof (Z.div_mod n 10). pose proof (Z.div_mod m 10).
  pose proof (Z.mod_pos_bound n 10). pose proof (Z.mod_pos_bound m 10).
  destruct (Z.compare_spec (n / 10) (m / 10));
    destruct (Z.compare_spec (n mod 10) (m mod 10));
    destruct (Z.compare_spec n m); try reflexivity; exfalso; lia.
Qed.

Lemma zpad_compare w : forall n m r r',
  0 <= n < 10 ^ Z.of_nat w -> 0 <= m < 10 ^ Z.of_nat w ->
  String.compare (zpad w n r) (zpad w m r') =
  match n ?= m with Eq => String.compare r r' | c => c end.
Proof.
  induction w as [|w IH]; intros n m r r' Hn Hm.
  - simpl in *. replace n with 0 by lia. replace m with 0 by lia. reflexivity.
  - rewrite Nat2Z.inj_succ, Z.pow_succ_r in Hn, Hm by lia.
    simpl zpad. rewrite IH.
    + simpl String.compare. rewrite digit_compare.
      * apply compare_by_digits.
      * pose proof (Z.mod_pos_bound n 10). lia.
      * pose proof (Z.mod_pos_bound m 10). lia.
    + split; [apply Z.div_pos; lia | apply Z.div_lt_upper_bound; lia].
    + split; [apply Z.div_pos; lia | apply Z.div_lt_upper_bound; lia].
Qed.

End OrderFacts.

(** X12. On a valid date a timestamp is fourteen decimal digits. *)
Theorem timestamp_is_fourteen_digits i :
  Datetime.valid (datetime_now i) ->
  String.length (timestamp_of i) = 14 /\ all_digits (timestamp_of i) = true.
Proof.
  intros V. split; [now apply TimestampFacts.timestamp_length|].
  rewrite TimestampFacts.timestamp_of_unfold. cbv zeta.
  repeat apply OrderFacts.zpad_all_digits. reflexivity.
Qed.

Lemma timestamp_is_fourteen_digits_witness :
  String.length (timestamp_of (clock Examples.ticking_host 0)) = 14 /\
  all_digits (timestamp_of (clock Examples.ticking_host 0)) = true.
Proof.
  apply timestamp_is_fourteen_digits. vm_compute. intuition discriminate.
Defined.

(** A year of three digits is printed as it is: the timestamp is one
    character short. *)
Example timestamp_of_an_early_year :
  timestamp_of {| utc_wall := Datetime.mk 999 1 1 12 0 0 0 None;
                  local_wall := Datetime.mk 999 1 1 12 0 0 0 None |}
  = "9990101120000".
Proof. reflexivity. Qed.

(** X13. On valid dates two timestamps are equal exactly when the two readings
    fall in the same second of the local wall clock. *)
Theorem timestamp_equal_iff_same_second i j :
  Datetime.valid (datetime_now i) -> Datetime.valid (datetime_now j) ->
  (timestamp_of i = timestamp_of j <->
   Datetime.to_second (datetime_now i) = Datetime.to_second (datetime_now j)).
Proof.
  intros Vi Vj. split.
  - now apply TimestampFacts.timestamp_inj.
  - apply TimestampFacts.timestamp_same_second.
Qed.

Lemma timestamp_equal_iff_same_second_witness :
  timestamp_of (clock Examples.ticking_host 0)
    = timestamp_of (clock Examples.ticking_host 1) <->
  wall_second Examples.ticking_host 0 = wall_second Examples.ticking_host 1.
Proof.
  apply timestamp_equal_iff_same_second; vm_compute; intuition discriminate.
Defined.

(** X14. On valid dates the order of two timestamps as strings is the order of the
    two readings on the local wall clock, year first and second last: names
    with one prefix sort by the time they were made. *)
Theorem timestamps_sort_by_wall_clock i j :
  Datetime.valid (datetime_now i) -> Datetime.valid (datetime_now j) ->
  String.compare (timestamp_of i) (timestamp_of j) =
  lexicographic (Datetime.to_second (datetime_now i))
                (Datetime.to_second (datetime_now j)).
Proof.
  intros Vi Vj. rewrite !TimestampFacts.timestamp_of_unfold. cbv zeta.
  rewrite (TimestampFacts.year_digits_valid Vi),
    (TimestampFacts.year_digits_valid Vj).
  unfold Datetime.valid in Vi, Vj. unfold Datetime.to_second, lexicographic.
  repeat (rewrite OrderFacts.zpad_compare by (simpl; lia)).
  simpl String.compare.
  repeat match goal with
  | |- context [(?a ?= ?b)%Z] => destruct (a ?= b)%Z; try reflexivity
  end.
Qed.

Lemma timestamps_sort_by_wall_clock_witness :
  String.compare (timestamp_of (clock Examples.ticking_host 0))
                 (timestamp_of (clock Examples.ticking_host 1)) = Lt.
Proof.
  rewrite timestamps_sort_by_wall_clock;
    [reflexivity | vm_compute; intuition discriminate ..].
Defined.


(** * The Ray operator stack *)

Module RayFacts.
Import Ray.

(** ** The tag of the deployment *)

Lemma full_dep_mod_slice (rq : Request) :
  full_dep_mod rq =
  firstn 256 (project_name rq ++ 45%N :: deployment_name rq
                ++ 45%N :: module_name rq)%list.
Proof.
  unfold full_dep_mod.
  change (project_name rq ++ 45%N :: deployment_name rq
            ++ 45%N :: module_name rq)%list with (dep_mod rq).
  destruct (Nat.ltb_spec 256 (List.length (dep_mod rq))) as [L|L].
  - reflexivity.
  - symmetry. now apply firstn_all2.
Qed.

(** X15. The value of the [Deployment] tag is the first 256 code points of
    project-deployment-module, the three names joined by hyphens (U+002D):
    never longer than 256 code points, a prefix of the full name, and the
    full name itself when that fits.  The test on the length changes nothing:
    the slice alone gives the same value. *)
Theorem deployment_tag_is_bounded (rq : Request) :
  List.length (full_dep_mod rq) <= 256 /\
  (exists rest, dep_mod rq = (full_dep_mod rq ++ rest)%list) /\
  (List.length (dep_mod rq) <= 256 -> full_dep_mod rq = dep_mod rq) /\
  dep_mod rq =
    (project_name rq ++ 45%N :: deployment_name rq
       ++ 45%N :: module_name rq)%list /\
  full_dep_mod rq = firstn 256 (dep_mod rq).
Proof.
  assert (E : full_dep_mod rq = firstn 256 (dep_mod rq))
    by exact (full_dep_mod_slice rq).
  rewrite E. repeat split.
  - rewrite length_firstn. lia.
  - exists (skipn 256 (dep_mod rq)). symmetry. apply firstn_skipn.
  - intros L. now apply firstn_all2.
Qed.

(** Three hundred accented letters, two bytes each in UTF-8, are cut after
    the 256th letter. *)
Example tag_of_an_accented_name :
  List.length (dep_mod RayExamples.accented_request) = 308 /\
  full_dep_mod RayExamples.accented_request = repeat 233%N 256 /\
  tags (snd (deploy RayExamples.host RayExamples.accented_request))
    = [("Deployment", repeat 233%N 256)].
Proof. vm_compute. repeat split. Qed.

(** ** The loop over the manifests *)

Lemma manifest_id_named h m id :
  manifest_id h m = inl id -> named_by h (id, m).
Proof.
  unfold manifest_id, subscript, named_by. intros H.
  destruct m as [| | | | |d|]; try discriminate H.
  destruct (lookup "metadata" d) as [meta|] eqn:Em; [|discriminate H].
  destruct meta as [| | | | |md|]; try discriminate H.
  destruct (lookup "name" md) as [name|] eqn:En; [|discriminate H].
  injection H as <-. now exists d, md, name.
Qed.

Lemma add_manifests_spec h path : forall stream w r w',
  add_manifests h path stream w = (r, w') ->
  (frame w' = frame w /\ io w' = io w /\
   exists added rest,
     manifests w' = manifests w ++ added /\
     Forall (named_by h) added /\
     documents stream = map snd added ++ rest /\
     (r = inl tt -> rest = [] /\ ~ In Malformed stream))%list.
Proof.
  induction stream as [|[m|] stream IH]; intros w r w' H; simpl in H.
  - injection H as <- <-. repeat split.
    exists [], []. rewrite app_nil_r. repeat split; auto.
  - unfold bind, lift in H.
    destruct (manifest_id h m) as [id|e] eqn:Eid.
    + unfold add_manifest in H at 1.
      destruct (add_manifest_accepts h (manifests w) id m).
      * apply IH in H. destruct H as (F & I & added & rest & M & N & D & S).
        split; [exact F|]. split; [exact I|].
        exists ((id, m) :: added), rest. simpl in M.
        rewrite <- app_assoc in M. repeat split.
        -- exact M.
        -- constructor; [now apply manifest_id_named | exact N].
        -- simpl. now rewrite D.
        -- now apply S.
        -- intros [C|C]; [discriminate C | now apply S in C].
      * injection H as <- <-. repeat split.
        exists [], (documents (Document m :: stream)).
        rewrite app_nil_r. repeat split; auto; discriminate.
    + injection H as <- <-. repeat split.
      exists [], (documents (Document m :: stream)).
      rewrite app_nil_r. repeat split; auto; discriminate.
  - injection H as <- <-. repeat split.
    exists [], (documents (Malformed :: stream)).
    rewrite app_nil_r. repeat split; auto; discriminate.
Qed.

Lemma add_custom_manifests_spec h : forall paths w r w',
  add_custom_manifests h paths w = (r, w') ->
  (frame w' = frame w /\
   (exists added rest,
      manifests w' = manifests w ++ added /\
      Forall (named_by h) added /\
      all_documents h paths = map snd added ++ rest /\
      (r = inl tt -> rest = [])) /\
   (exists ps qs,
      paths = ps ++ qs /\
      io w' = io w ++ open_and_close ps /\
      (r = inl tt -> qs = [])) /\
   (r = inl tt ->
      forall p, In p paths ->
        exists stream, files h p = Some stream /\ ~ In Malformed stream))%list.
Proof.
  induction paths as [|p paths IH]; intros w r w' H; simpl in H.
  - injection H as <- <-. split; [reflexivity|]. split; [|split].
    + exists [], []. rewrite app_nil_r. repeat split; auto.
    + exists [], []. simpl. rewrite app_nil_r. repeat split; auto.
    + intros _ q [].
  - unfold bind at 1 in H. unfold with_open in H.
    destruct (files h p) as [stream|] eqn:Ef.
    + unfold bind at 1, modify, finally in H.
      destruct (add_manifests h p stream (log (opened p) w)) as [r1 w1] eqn:E1.
      apply add_manifests_spec in E1.
      destruct E1 as (F1 & I1 & added1 & rest1 & M1 & N1 & D1 & S1).
      destruct r1 as [[]|e].
      * apply IH in H.
        destruct H as (F & (added & rest & M & N & D & S) & (ps & qs & P & I & Q) & A).
        destruct (S1 eq_refl) as [-> NM]. rewrite app_nil_r in D1.
        split; [|split; [|split]].
        -- rewrite F. unfold frame in *. simpl in *. exact F1.
        -- exists (added1 ++ added)%list, rest. simpl in M. rewrite M, M1.
           simpl. rewrite <- app_assoc. repeat split.
           ++ apply Forall_app. now split.
           ++ rewrite Ef, D1, D, map_app, <- app_assoc. reflexivity.
           ++ exact S.
        -- exists (p :: ps), qs. repeat split.
           ++ simpl. now rewrite P.
           ++ rewrite I. simpl. rewrite I1. simpl.
              rewrite <- !app_assoc. reflexivity.
           ++ exact Q.
        -- intros R q [<-|Hq]; [now exists stream | now apply A].
      * injection H as <- <-.
        split; [|split; [|split]].
        -- unfold frame in *. simpl in *. exact F1.
        -- exists added1, (rest1 ++ all_documents h paths)%list. simpl.
           rewrite M1. simpl. repeat split.
           ++ exact N1.
           ++ rewrite Ef, D1, <- app_assoc. reflexivity.
           ++ discriminate.
        -- exists [p], paths. repeat split.
           ++ simpl. rewrite I1. simpl. rewrite <- app_assoc. reflexivity.
           ++ discriminate.
        -- discriminate.
    + injection H as <- <-.
      split; [reflexivity|]. split; [|split].
      * exists [], (all_documents h (p :: paths)).
        rewrite app_nil_r. repeat split; auto; discriminate.
      * exists [], (p :: paths). simpl. rewrite app_nil_r.
        repeat split; discriminate.
      * discriminate.
Qed.

Lemma deploy_loop h rq r w :
  deploy h rq = (r, w) ->
  exists w0,
    frame w0 =
      ([ ("project_name", project_name rq);
         ("deployment_name", deployment_name rq);
         ("module_name", module_name rq) ],
       [ ("Deployment", full_dep_mod rq) ],
       [ OpenIdConnectProvider_from_arn "OIDCProvider"
           (eks_openid_connect_provider_arn rq);
         KubectlV29Layer "Kubectlv29Layer";
         Cluster_from_attributes "EKSCluster" (eks_cluster_name rq)
           "OIDCProvider" (eks_admin_role_arn rq) "Kubectlv29Layer" ],
       [ ray_operator rq ]) /\
    manifests w0 = [] /\ io w0 = [] /\
    add_custom_manifests h (custom_manifest_paths rq) w0 = (r, w).
Proof.
  intros H. eexists. repeat split; [..|exact H]; reflexivity.
Qed.



(** X17. The files are opened one at a time in the order of the paths, and every
    file that was opened is closed again before the next is opened or the
    constructor is left, also when it is left by an exception.  A construction
    that completes has read all of them. *)
Theorem files_are_read_in_order_and_closed h rq r w :
  deploy h rq = (r, w) ->
  exists ps qs,
    custom_manifest_paths rq = (ps ++ qs)%list /\
    io w = open_and_close ps /\
    (r = inl tt -> qs = []).
Proof.
  intros H. apply deploy_loop in H. destruct H as (w0 & _ & _ & I0 & H).
  apply add_custom_manifests_spec in H.
  destruct H as (_ & _ & (ps & qs & P & I & Q) & _).
  exists ps, qs. rewrite I0 in I. auto.
Qed.

Lemma files_are_read_in_order_and_closed_witness :
  let rq := RayExamples.request ["good.yaml"; "empty.yaml"; "good.yaml"] in
  let p := deploy RayExamples.host rq in
  io (snd p) = [opened "good.yaml"; closed "good.yaml";
                opened "empty.yaml"; closed "empty.yaml"] /\
  exists ps qs,
    custom_manifest_paths rq = (ps ++ qs)%list /\
    io (snd p) = open_and_close ps /\
    (fst p = inl tt -> qs = []).
Proof.
  split; [reflexivity|].
  exact (@files_are_read_in_order_and_closed RayExamples.host
           (RayExamples.request ["good.yaml"; "empty.yaml"; "good.yaml"])
           _ _ (surjective_pairing _)).
Defined.

Lemma completed_manifests h rq w :
  deploy h rq = (inl tt, w) ->
  Forall (named_by h) (manifests w) /\
  all_documents h (custom_manifest_paths rq) = map snd (manifests w).
Proof.
  intros H. apply deploy_loop in H. destruct H as (w0 & _ & M0 & _ & H).
  apply add_custom_manifests_spec in H.
  destruct H as (_ & (added & rest & M & N & D & S) & _).
  rewrite M0 in M. simpl in M. subst added.
  rewrite (S eq_refl), app_nil_r in D. now split.
Qed.

(** X18. The manifests of the stack are documents of the files, taken in order
    from the first on, each a mapping with a [metadata] mapping that has a
    [name], added under that name.  A construction that completes has added
    every document of every file, every file could be opened, and none held a
    malformed document. *)
Theorem manifests_are_the_documents h rq r w :
  deploy h rq = (r, w) ->
  Forall (named_by h) (manifests w) /\
  (exists rest,
     all_documents h (custom_manifest_paths rq)
       = (map snd (manifests w) ++ rest)%list /\
     (r = inl tt -> rest = [])) /\
  (r = inl tt ->
     forall p, In p (custom_manifest_paths rq) ->
       exists stream, files h p = Some stream /\ ~ In Malformed stream).
Proof.
  intros H. apply deploy_loop in H. destruct H as (w0 & _ & M0 & _ & H).
  apply add_custom_manifests_spec in H.
  destruct H as (_ & (added & rest & M & N & D & S) & _ & A).
  rewrite M0 in M. simpl in M. subst added.
  split; [exact N|]. split; [now exists rest | exact A].
Qed.

Lemma manifests_are_the_documents_witness :
  let p := deploy RayExamples.host (RayExamples.request ["good.yaml"]) in
  fst p = inl tt /\
  map fst (manifests (snd p)) = ["cluster"; "job"] /\
  Forall (named_by RayExamples.host) (manifests (snd p)).
Proof.
  split; [reflexivity|]. split; [reflexivity|].
  exact (proj1 (@manifests_are_the_documents RayExamples.host
                  (RayExamples.request ["good.yaml"])
                  _ _ (surjective_pairing _))).
Defined.

(** X19. A document that is not a mapping with a named [metadata], such as the
    empty document of a stray separator, makes the construction fail,
    whichever file of the request holds it. *)
Theorem unnamed_document_fails h rq p stream m e :
  In p (custom_manifest_paths rq) ->
  files h p = Some stream ->
  In (Document m) stream ->
  manifest_id h m = inr e ->
  exists e', fst (deploy h rq) = inr e'.
Proof.
  intros Hp Hf Hm He.
  destruct (deploy h rq) as [r w] eqn:H. simpl.
  destruct r as [[]|e']; [|now exists e'].
  exfalso.
  destruct (@completed_manifests h rq w H) as (N & D).
  assert (Hin : In m (map snd (manifests w))).
  { rewrite <- D. unfold all_documents. apply in_flat_map.
    exists p. split; [exact Hp|]. rewrite Hf. unfold documents.
    apply in_flat_map. exists (Document m). split; [exact Hm | now left]. }
  apply in_map_iff in Hin. destruct Hin as ([id m'] & Em & Hin).
  simpl in Em. subst m'.
  rewrite Forall_forall in N. apply N in Hin.
  destruct Hin as (d & md & name & E1 & E2 & E3 & _). simpl in E1. subst m.
  unfold manifest_id, subscript in He. rewrite E2, E3 in He. discriminate He.
Qed.

Lemma unnamed_document_fails_witness :
  fst (deploy RayExamples.host (RayExamples.request ["empty.yaml"]))
    = inr (TypeError ONone) /\
  map fst (manifests (snd (deploy RayExamples.host
                             (RayExamples.request ["empty.yaml"]))))
    = ["job"] /\
  exists e,
    fst (deploy RayExamples.host (RayExamples.request ["empty.yaml"]))
      = inr e.
Proof.
  split; [reflexivity|]. split; [reflexivity|].
  apply (@unnamed_document_fails RayExamples.host
           (RayExamples.request ["empty.yaml"])
           "empty.yaml" [Document RayExamples.ray_job; Document ONone]
           ONone (TypeError ONone)).
  - simpl. tauto.
  - reflexivity.
  - simpl. tauto.
  - reflexivity.
Defined.

Lemma add_custom_manifests_app h ps qs : forall w,
  add_custom_manifests h (ps ++ qs)%list w =
  bind (add_custom_manifests h ps) (fun _ => add_custom_manifests h qs) w.
Proof.
  induction ps as [|p ps IH]; intros w; simpl; [reflexivity|].
  unfold bind.
  destruct (with_open h p (add_manifests h p) w) as [[[]|e] w1];
    [rewrite IH; reflexivity | reflexivity].
Qed.

(** X20. A file that cannot be opened ends the loop with the error of [open]: what
    the files before it have added stays as it is, the file itself is not
    read, and the files after it are not looked at. *)
Theorem missing_file_stops_the_loop h ps p qs w w1 :
  add_custom_manifests h ps w = (inl tt, w1) ->
  files h p = None ->
  add_custom_manifests h (ps ++ p :: qs)%list w = (inr (OSError p), w1).
Proof.
  intros H Hp. rewrite add_custom_manifests_app. unfold bind at 1.
  rewrite H. simpl. unfold bind, with_open. rewrite Hp. reflexivity.
Qed.

Lemma missing_file_stops_the_loop_witness :
  add_custom_manifests RayExamples.host
    ["good.yaml"; "missing.yaml"; "good.yaml"] fresh_stack
  = (inr (OSError "missing.yaml"),
     snd (add_custom_manifests RayExamples.host ["good.yaml"] fresh_stack)).
Proof.
  apply (@missing_file_stops_the_loop RayExamples.host
           ["good.yaml"] "missing.yaml" ["good.yaml"] fresh_stack);
    reflexivity.
Defined.






Lemma named_manifest_id h e : named_by h e -> manifest_id h (snd e) = inl (fst e).
Proof.
  intros (d & md & name & E1 & E2 & E3 & E4).
  unfold manifest_id, subscript. now rewrite E1, E2, E3, E4.
Qed.

Lemma add_manifests_distinct h path : forall stream w r w',
  (forall ms id m,
     In id (map fst ms) -> add_manifest_accepts h ms id m = false) ->
  add_manifests h path stream w = (r, w') ->
  NoDup (map fst (manifests w)) -> NoDup (map fst (manifests w')).
Proof.
  induction stream as [|[m|] stream IH]; intros w r w' A H N; simpl in H.
  - now injection H as _ <-.
  - unfold bind, lift in H.
    destruct (manifest_id h m) as [id|e]; [|now injection H as _ <-].
    unfold add_manifest in H at 1.
    destruct (add_manifest_accepts h (manifests w) id m) eqn:Acc;
      [|now injection H as _ <-].
    eapply IH; [exact A | exact H |]. simpl. rewrite map_app. simpl.
    apply NoDup_app; [exact N | repeat constructor; intros [] |].
    intros x Hx [<-|[]]. rewrite (A _ _ m Hx) in Acc. discriminate Acc.
  - now injection H as _ <-.
Qed.

Lemma add_custom_manifests_distinct h : forall paths w r w',
  (forall ms id m,
     In id (map fst ms) -> add_manifest_accepts h ms id m = false) ->
  add_custom_manifests h paths w = (r, w') ->
  NoDup (map fst (manifests w)) -> NoDup (map fst (manifests w')).
Proof.
  induction paths as [|p paths IH]; intros w r w' A H N; simpl in H.
  - now injection H as _ <-.
  - unfold bind at 1 in H. unfold with_open in H.
    destruct (files h p) as [stream|]; [|now injection H as _ <-].
    unfold bind at 1, modify, finally in H.
    destruct (add_manifests h p stream (log (opened p) w)) as [r1 w1] eqn:E1.
    eapply add_manifests_distinct in E1; [|exact A|exact N].
    destruct r1 as [[]|e].
    + eapply IH; [exact A | exact H | exact E1].
    + injection H as _ <-. exact E1.
Qed.

Lemma distinct_ids h rq r w :
  (forall ms id m,
     In id (map fst ms) -> add_manifest_accepts h ms id m = false) ->
  deploy h rq = (r, w) -> NoDup (map fst (manifests w)).
Proof.
  intros A H. apply deploy_loop in H. destruct H as (w0 & _ & M0 & _ & H).
  eapply add_custom_manifests_distinct; [exact A | exact H |].
  rewrite M0. constructor.
Qed.

Lemma refuses_duplicates :
  forall ms id (m : PyObj),
    In id (map fst ms) ->
    add_manifest_accepts RayExamples.host ms id m = false.
Proof.
  intros ms id m H. simpl. apply negb_false_iff, existsb_exists.
  exists id. split; [exact H | apply String.eqb_refl].
Qed.

Lemma NoDup_map_inl (l : list string) :
  NoDup l -> NoDup (map (fun x => @inl string Exn x) l).
Proof.
  induction 1 as [|x l Hx N IH]; simpl; constructor; [|exact IH].
  intros C. apply in_map_iff in C. destruct C as (y & [= ->] & Hy).
  contradiction.
Qed.

(** X23. Two documents that come under the same name, in one file or in two, make
    the construction fail, as the cluster construct refuses a second manifest
    under an id it has. *)
Theorem repeated_name_fails h rq :
  (forall ms id m,
     In id (map fst ms) -> add_manifest_accepts h ms id m = false) ->
  ~ NoDup (all_ids h (custom_manifest_paths rq)) ->
  exists e, fst (deploy h rq) = inr e.
Proof.
  intros A D. destruct (deploy h rq) as [r w] eqn:H. simpl.
  destruct r as [[]|e]; [|now exists e].
  exfalso. apply D.
  destruct (@completed_manifests h rq w H) as (N & E).
  unfold all_ids. rewrite E, map_map.
  rewrite (map_ext_in _ (fun e => inl (fst e))).
  - rewrite <- (map_map fst (fun x => inl x)). apply NoDup_map_inl.
    exact (@distinct_ids h rq _ w A H).
  - intros e He. apply named_manifest_id.
    rewrite Forall_forall in N. now apply N.
Qed.

Lemma repeated_name_fails_witness :
  exists e,
    fst (deploy RayExamples.host
           (RayExamples.request ["good.yaml"; "good.yaml"])) = inr e.
Proof.
  apply (@repeated_name_fails RayExamples.host
           (RayExamples.request ["good.yaml"; "good.yaml"])
           refuses_duplicates).
  intros N. vm_compute in N.
  inversion N as [|x l Hx _]. apply Hx. simpl. tauto.
Defined.

End RayFacts.
